(** * The codebase-scanning engine of the Learning Notebook MCP server

    A shallow embedding of [utils/file-operations.ts], [utils/analysis-helper.ts],
    [tools/search-codebase.js] and [tools/analyze-component-usage.ts], with the
    properties the specification states about them.

    Conventions of the embedding.
    - A JavaScript string is the [string] of the bytes of its UTF-8 form;
      case folding, white space and word characters are those of the ASCII
      range, so the embedding is exact on ASCII text.
    - The file system is a finite tree of directory entries ([node]); an entry
      that [readdir] reports as neither a directory nor a regular file (a
      symbolic link, a socket, ...) is a leaf [Other]. Paths are POSIX paths.
    - An [async] function that mutates a captured array or a [Map] becomes a
      function that takes the store and returns the new one; a rejected
      promise that the source catches becomes the store as the exception
      left it.
    - What the platform fixes and the source does not ([process.cwd()], the
      outcome of [access] and [stat], the compilation of a pattern built at
      run time) is a variable of the section that uses it. *)

From Stdlib Require Import List String Ascii Bool Arith ZArith Lia.
From Stdlib Require Import Sorting.Sorted Sorting.Permutation.
From Stdlib Require Import Numbers.DecimalString.
Import ListNotations.
Open Scope string_scope.
Open Scope bool_scope.

Set Implicit Arguments.

(* ================================================================= *)
(** ** JavaScript strings and arrays *)

Module Js.

(** The double quote, which a string literal of this file cannot hold. *)
Definition dquote : ascii := ascii_of_nat 34.
Definition newline : ascii := ascii_of_nat 10.
Definition nl : string := String newline EmptyString.

Definition isUpper (c : ascii) : bool :=
  ((65 <=? nat_of_ascii c) && (nat_of_ascii c <=? 90))%nat.

Definition lowerChar (c : ascii) : ascii :=
  if isUpper c then ascii_of_nat (nat_of_ascii c + 32) else c.

(** [String.prototype.toLowerCase] in the ASCII range: the letters [A]
    to [Z] are folded, every other byte is kept. On a text of ASCII
    characters this is the function of the platform. *)
Fixpoint toLowerCase (s : string) : string :=
  match s with
  | EmptyString => EmptyString
  | String c s' => String (lowerChar c) (toLowerCase s')
  end.

(** [s.startsWith(p)]. *)
Definition startsWith (s p : string) : bool := String.prefix p s.

(** [s.includes(q)]: [q] occurs at some position of [s]. *)
Fixpoint includes (s q : string) : bool :=
  String.prefix q s ||
  match s with
  | EmptyString => false
  | String _ s' => includes s' q
  end.

(** [s.endsWith(p)]. *)
Fixpoint endsWith (s p : string) : bool :=
  (s =? p) ||
  match s with
  | EmptyString => false
  | String _ s' => endsWith s' p
  end.

(** [s.split(c)] for a separator of one character: never empty. *)
Fixpoint split (c : ascii) (s : string) : list string :=
  match s with
  | EmptyString => [EmptyString]
  | String a s' =>
      if Ascii.eqb a c then EmptyString :: split c s'
      else match split c s' with
           | [] => [String a EmptyString]
           | h :: t => String a h :: t
           end
  end.

(** [parts.join(sep)]. *)
Definition join (sep : string) (parts : list string) : string :=
  String.concat sep parts.

(** White space of [\s] and of [trim] in the ASCII range:
    TAB, LF, VT, FF, CR and SPACE. *)
Definition isSpace (c : ascii) : bool :=
  let n := nat_of_ascii c in
  (((9 <=? n) && (n <=? 13)) || (n =? 32))%nat.

(** A character of the ASCII range: a byte below 128. On a text of such
    bytes the white space above is all the white space there is. *)
Definition isAscii (c : ascii) : bool := (nat_of_ascii c <? 128)%nat.

Fixpoint trimStart (s : string) : string :=
  match s with
  | EmptyString => EmptyString
  | String c s' => if isSpace c then trimStart s' else s
  end.

Fixpoint trimEnd (s : string) : string :=
  match s with
  | EmptyString => EmptyString
  | String c s' =>
      match trimEnd s' with
      | EmptyString => if isSpace c then EmptyString else String c EmptyString
      | t => String c t
      end
  end.

(** [s.trim()], with the white space of the ASCII range. *)
Definition trim (s : string) : string := trimEnd (trimStart s).

(** Every character of [s] satisfies [p]. *)
Fixpoint allChars (p : ascii -> bool) (s : string) : bool :=
  match s with
  | EmptyString => true
  | String c s' => p c && allChars p s'
  end.

Definition noChar (c : ascii) : ascii -> bool := fun x => negb (Ascii.eqb x c).

(** [arr.slice(start, end)]. *)
Definition slice {A} (l : list A) (start stop : nat) : list A :=
  firstn (stop - start) (skipn start l).

(** [arr.includes(x)] on an array of strings. *)
Definition arrayIncludes (l : list string) (x : string) : bool :=
  existsb (String.eqb x) l.

(** [arr.forEach((x, index) => ...)] with the store threaded through. *)
Fixpoint forEachFrom {A St} (f : A -> nat -> St -> St) (l : list A) (index : nat) (st : St) : St :=
  match l with
  | [] => st
  | x :: l' => forEachFrom f l' (S index) (f x index st)
  end.

Definition forEach {A St} (f : A -> nat -> St -> St) (l : list A) (st : St) : St :=
  forEachFrom f l 0 st.

(** [arr.map((x, index) => ...)]. *)
Fixpoint mapiFrom {A B} (f : A -> nat -> B) (l : list A) (index : nat) : list B :=
  match l with
  | [] => []
  | x :: l' => f x index :: mapiFrom f l' (S index)
  end.

(** [s.replace(pattern, replacement)] with a string pattern: the first
    occurrence only. *)
Fixpoint dropPrefix (p s : string) : option string :=
  match p with
  | EmptyString => Some s
  | String a p' =>
      match s with
      | String b s' => if Ascii.eqb a b then dropPrefix p' s' else None
      | EmptyString => None
      end
  end.

Fixpoint replace (s pattern replacement : string) : string :=
  match dropPrefix pattern s with
  | Some rest => replacement ++ rest
  | None =>
      match s with
      | EmptyString => EmptyString
      | String c s' => String c (replace s' pattern replacement)
      end
  end.

(** [arr.sort(compareFn)]: the sort is stable, and [a] stays before [b]
    when [compareFn(a, b) <= 0]. *)
Fixpoint insertSorted {A} (compareFn : A -> A -> Z) (x : A) (sorted : list A) : list A :=
  match sorted with
  | [] => [x]
  | y :: rest =>
      if (compareFn x y <=? 0)%Z then x :: sorted
      else y :: insertSorted compareFn x rest
  end.

Fixpoint sort {A} (compareFn : A -> A -> Z) (l : list A) : list A :=
  match l with
  | [] => []
  | x :: rest => insertSorted compareFn x (sort compareFn rest)
  end.

(** A number in a template literal. *)
Definition numberToString (n : nat) : string :=
  NilEmpty.string_of_uint (Nat.to_uint n).

End Js.

(* ================================================================= *)
(** ** Node's [path] module (POSIX) *)

Module Path.

Definition slash : ascii := "/"%char.

(** The loop of [normalizeString]: [.] and empty segments vanish, [..]
    removes the segment before it; above the root it is dropped
    ([allowAboveRoot = false]) or kept. [acc] holds the result reversed. *)
Fixpoint normalizeSegments (allowAboveRoot : bool) (segs acc : list string) : list string :=
  match segs with
  | [] => rev acc
  | seg :: rest =>
      if (seg =? "") || (seg =? ".") then normalizeSegments allowAboveRoot rest acc
      else if seg =? ".." then
        match acc with
        | top :: acc' =>
            if top =? ".." then normalizeSegments allowAboveRoot rest (".." :: acc)
            else normalizeSegments allowAboveRoot rest acc'
        | [] =>
            if allowAboveRoot then normalizeSegments allowAboveRoot rest [".."]
            else normalizeSegments allowAboveRoot rest []
        end
      else normalizeSegments allowAboveRoot rest (seg :: acc)
  end.

Definition normalizeString (path : string) (allowAboveRoot : bool) : string :=
  Js.join "/" (normalizeSegments allowAboveRoot (Js.split slash path) []).

Definition isAbsolute (path : string) : bool := Js.startsWith path "/".

(** The right-to-left loop of [resolve]: empty arguments are skipped and
    the walk stops at the first absolute one. *)
Fixpoint resolveLoop (reversed : list string) (resolvedPath : string) : string * bool :=
  match reversed with
  | [] => (resolvedPath, false)
  | path :: rest =>
      if path =? "" then resolveLoop rest resolvedPath
      else
        let resolvedPath' := path ++ "/" ++ resolvedPath in
        if isAbsolute path then (resolvedPath', true)
        else resolveLoop rest resolvedPath'
  end.

(** [path.resolve(...paths)], with [cwd] the value of [process.cwd()]. *)
Definition resolve (cwd : string) (paths : list string) : string :=
  let '(resolvedPath, resolvedAbsolute) := resolveLoop (rev paths ++ [cwd]) "" in
  let normalized := normalizeString resolvedPath (negb resolvedAbsolute) in
  if resolvedAbsolute then "/" ++ normalized
  else if normalized =? "" then "." else normalized.

(** [path.join(a, b)]: the non-empty arguments joined by [/], normalized. *)
Definition normalize (path : string) : string :=
  if path =? "" then "." else
  let absolute := isAbsolute path in
  let trailing := Js.endsWith path "/" in
  let p := normalizeString path (negb absolute) in
  let p := if p =? "" then (if absolute then "" else if trailing then "./" else ".")
           else if trailing then p ++ "/" else p in
  if absolute then "/" ++ p else p.

Definition join (a b : string) : string :=
  normalize (Js.join "/" (filter (fun s => negb (s =? "")) [a; b])).

(** The segments of a resolved path. *)
Definition segments (path : string) : list string :=
  filter (fun s => negb (s =? "")) (Js.split slash path).

Fixpoint relativeSegments (from to : list string) : list string :=
  match from, to with
  | a :: from', b :: to' =>
      if a =? b then relativeSegments from' to'
      else map (fun _ => "..") from ++ to
  | _, _ => map (fun _ => "..") from ++ to
  end.

(** [path.relative(from, to)]. *)
Definition relative (cwd from to : string) : string :=
  Js.join "/" (relativeSegments (segments (resolve cwd [from]))
                                (segments (resolve cwd [to]))).

(** The last component of a path, trailing separators ignored. *)
Definition lastComponent (path : string) : string :=
  last (segments path) "".

Fixpoint lastDot (s : string) : option string :=
  match s with
  | EmptyString => None
  | String c s' =>
      match lastDot s' with
      | Some e => Some e
      | None => if Ascii.eqb c "."%char then Some s else None
      end
  end.

(** [path.extname(path)]: from the last [.] of the last component to its
    end; empty when there is no dot, when the only dot is the component's
    first character, and for the component [..]. *)
Definition extname (path : string) : string :=
  let base := lastComponent path in
  match base with
  | EmptyString => ""
  | String _ rest =>
      if base =? ".." then ""
      else match lastDot rest with
           | Some e => e
           | None => ""
           end
  end.

End Path.

(* ================================================================= *)
(** ** The file system *)

Module Fs.

(** What a directory holds. [File None] is a file that [readFile] rejects,
    [Dir false _] a directory that [readdir] rejects, and [Other content] an
    entry that is neither for [readdir], with what [readFile] yields when it
    is opened all the same (a symbolic link to a readable file has some
    content). *)
#[local] Unset Elimination Schemes.
Inductive node : Type :=
| File (content : option string)
| Dir (readable : bool) (items : list (string * node))
| Other (content : option string).
#[local] Set Elimination Schemes.

(** Induction over a tree, with the property available for every entry of
    a directory. *)
Section Induction.
Variable P : node -> Prop.
Hypothesis HFile : forall content, P (File content).
Hypothesis HDir : forall readable items,
    Forall (fun entry => P (snd entry)) items -> P (Dir readable items).
Hypothesis HOther : forall content, P (Other content).

Fixpoint node_ind (n : node) : P n :=
  match n with
  | File content => HFile content
  | Dir readable items =>
      HDir readable
        ((fix entries (l : list (string * node)) : Forall (fun entry => P (snd entry)) l :=
            match l with
            | [] => Forall_nil _
            | (name, child) :: rest =>
                Forall_cons (name, child) (node_ind child) (entries rest)
            end) items)
  | Other content => HOther content
  end.
End Induction.

(** [Dirent.isDirectory()] and [Dirent.isFile()]. *)
Definition isDirectory (n : node) : bool :=
  match n with Dir _ _ => true | _ => false end.

Definition isFile (n : node) : bool :=
  match n with File _ => true | _ => false end.

(** [readFile(path, 'utf-8')] on the entry found at [path]. *)
Definition readFile (n : node) : option string :=
  match n with
  | File content => content
  | Other content => content
  | Dir _ _ => None
  end.

Fixpoint findEntry (name : string) (items : list (string * node)) : option node :=
  match items with
  | [] => None
  | (n, child) :: rest => if n =? name then Some child else findEntry name rest
  end.

Fixpoint nodeAtSegments (n : node) (segs : list string) : option node :=
  match segs with
  | [] => Some n
  | seg :: rest =>
      match n with
      | Dir _ items =>
          match findEntry seg items with
          | Some child => nodeAtSegments child rest
          | None => None
          end
      | _ => None
      end
  end.

(** The entry a path names in the tree rooted at [/]; a relative path is
    taken from the working directory [cwd]. *)
Definition nodeAt (cwd : string) (fs : node) (path : string) : option node :=
  nodeAtSegments fs (Path.segments (Path.resolve cwd [path])).

End Fs.

(* ================================================================= *)
(** ** [utils/file-operations.ts] *)

Module FileOperations.

Import Fs.

(** [SearchResult] of [types/index.ts]. *)
Record SearchResult : Type := {
  file : string;
  line : nat;
  context : string;
  excerpt : string
}.

(** The three [throw] statements of [validateFilePath]:
    'File path is outside project directory',
    'File type ... not allowed. ...' and 'File not accessible: ...'. *)
Inductive PathGuardError : Type :=
| OutOfScope
| DisallowedType (ext : string)
| NotAccessible.

Definition ALLOWED_EXTENSIONS : list string :=
  [".ts"; ".html"; ".scss"; ".css"; ".json"; ".md"; ".js"].

(** The directory names every walk of this file refuses to enter. *)
Definition entersDirectory (name : string) (item : node) : bool :=
  isDirectory item && negb (Js.startsWith name ".")
  && negb (name =? "node_modules") && negb (name =? "dist").

Section Env.

(** [process.cwd()] when the module is loaded. *)
Variable cwd : string.

Definition ANGULAR_PROJECT_PATH : string :=
  Path.resolve cwd [cwd; "../learning-notebook"].

Section PathGuard.

(** [access(path)] is fulfilled; [stat(path)] is fulfilled with
    [isFile()] the given boolean, or rejected ([None]). *)
Variable access : string -> bool.
Variable statIsFile : string -> option bool.

Definition validateFilePath (filePath : string) : string + PathGuardError :=
  let fullPath := Path.resolve cwd [ANGULAR_PROJECT_PATH; filePath] in
  if negb (Js.startsWith fullPath (Path.resolve cwd [ANGULAR_PROJECT_PATH])) then
    inr OutOfScope
  else
    let ext := Path.extname fullPath in
    if negb (Js.arrayIncludes ALLOWED_EXTENSIONS ext) then
      inr (DisallowedType ext)
    else if negb (access fullPath) then inr NotAccessible
    else match statIsFile fullPath with
         | Some true => inl fullPath
         | _ => inr NotAccessible
         end.

(** The target exists and is a regular file. *)
Definition isRegularFile (fullPath : string) : bool :=
  access fullPath &&
  match statIsFile fullPath with
  | Some true => true
  | _ => false
  end.

End PathGuard.

(** The body of [lines.forEach((line, index) => ...)] in [performSearch]. *)
Definition searchLine (fullPath query : string) (lines : list string)
           (line : string) (index : nat) (results : list SearchResult)
  : list SearchResult :=
  if Js.includes (Js.toLowerCase line) (Js.toLowerCase query) then
    (results ++ [ {| file := Path.relative cwd ANGULAR_PROJECT_PATH fullPath;
                     line := index + 1;
                     context := Js.trim line;
                     excerpt := Js.join Js.nl
                                  (Js.slice lines (Nat.max 0 (index - 2)) (index + 3)) |} ])%list
  else results.

(** The branch of [searchFiles] that reads one file. *)
Definition searchFile (fullPath query : string) (item : node)
           (results : list SearchResult) : list SearchResult :=
  match readFile item with
  | Some content =>
      let lines := Js.split Js.newline content in
      Js.forEach (searchLine fullPath query lines) lines results
  | None => results
  end.

(** The closure [searchFiles] of [performSearch]; [n] is the entry at
    [dir] and [results] the captured array. *)
Fixpoint searchFiles (query : string) (allowedTypes : list string)
         (dir : string) (n : node) (results : list SearchResult) {struct n}
  : list SearchResult :=
  match n with
  | Dir true items =>
      (fix forItems (items : list (string * node)) (results : list SearchResult)
         {struct items} : list SearchResult :=
         match items with
         | [] => results
         | (name, item) :: rest =>
             let fullPath := Path.join dir name in
             forItems rest
               (if entersDirectory name item then
                  searchFiles query allowedTypes fullPath item results
                else if isFile item && Js.arrayIncludes allowedTypes (Path.extname name) then
                  searchFile fullPath query item results
                else results)
         end) items results
  | _ => results
  end.

Definition performSearch (fs : node) (searchDir query : string)
           (allowedTypes : list string) : list SearchResult :=
  let results :=
    match nodeAt cwd fs searchDir with
    | Some n => searchFiles query allowedTypes searchDir n []
    | None => []
    end in
  Js.slice results 0 50.

(** The closure [countFiles] of [countSearchableFiles]. *)
Fixpoint countFiles (allowedTypes : list string) (dir : string) (n : node)
         (count : nat) {struct n} : nat :=
  match n with
  | Dir true items =>
      (fix forItems (items : list (string * node)) (count : nat) {struct items} : nat :=
         match items with
         | [] => count
         | (name, item) :: rest =>
             let fullPath := Path.join dir name in
             forItems rest
               (if entersDirectory name item then
                  countFiles allowedTypes fullPath item count
                else if isFile item && Js.arrayIncludes allowedTypes (Path.extname name) then
                  count + 1
                else count)
         end) items count
  | _ => count
  end.

Definition countSearchableFiles (fs : node) (searchDir : string)
           (allowedTypes : list string) : nat :=
  match nodeAt cwd fs searchDir with
  | Some n => countFiles allowedTypes searchDir n 0
  | None => 0
  end.

(** *** The walk as the specification describes it *)

(** The files a walk reads: depth first, in the order of the directory's
    entries, with their full paths. *)
Fixpoint searchableFiles (allowedTypes : list string) (dir : string) (n : node)
  : list (string * node) :=
  match n with
  | Dir true items =>
      flat_map (fun entry : string * node =>
                  let fullPath := Path.join dir (fst entry) in
                  if entersDirectory (fst entry) (snd entry) then
                    searchableFiles allowedTypes fullPath (snd entry)
                  else if isFile (snd entry)
                          && Js.arrayIncludes allowedTypes (Path.extname (fst entry)) then
                    [(fullPath, snd entry)]
                  else []) items
  | _ => []
  end.

(** The hits of one file: for every matching line one hit, in ascending
    line order. *)
Definition fileHits (fullPath query : string) (item : node) : list SearchResult :=
  match readFile item with
  | Some content =>
      let lines := Js.split Js.newline content in
      List.concat (Js.mapiFrom (fun line index => searchLine fullPath query lines line index [])
                          lines 0)
  | None => []
  end.

(** The files a walk from [searchDir] reads. *)
Definition searchableFilesAt (fs : node) (searchDir : string) (allowedTypes : list string)
  : list (string * node) :=
  match nodeAt cwd fs searchDir with
  | Some n => searchableFiles allowedTypes searchDir n
  | None => []
  end.

(** All hits of the corpus under [searchDir], in traversal order. *)
Definition hitsInTraversalOrder (fs : node) (searchDir query : string)
           (allowedTypes : list string) : list SearchResult :=
  flat_map (fun visited => fileHits (fst visited) query (snd visited))
           (searchableFilesAt fs searchDir allowedTypes).

End Env.

(** The resolved path lies inside the project directory: it has the
    segments of the project path, then its own. *)
Fixpoint segmentPrefix (p l : list string) : bool :=
  match p, l with
  | [], _ => true
  | a :: p', b :: l' => (a =? b) && segmentPrefix p' l'
  | _ :: _, [] => false
  end.

Definition insideProject (cwd fullPath : string) : bool :=
  segmentPrefix (Path.segments (ANGULAR_PROJECT_PATH cwd)) (Path.segments fullPath).

(** The names [entersDirectory] refuses. *)
Definition skippedName (name : string) : bool :=
  Js.startsWith name "." || (name =? "node_modules") || (name =? "dist").

(** The tree without the directories of a refused name, at every depth. *)
Fixpoint prune (n : node) : node :=
  match n with
  | Dir readable items =>
      Dir readable
        ((fix pruneItems (items : list (string * node)) : list (string * node) :=
            match items with
            | [] => []
            | (name, item) :: rest =>
                if isDirectory item && skippedName name then pruneItems rest
                else (name, prune item) :: pruneItems rest
            end) items)
  | _ => n
  end.

(** The hit [performSearch] pushes for line [index] of a file. *)
Definition hitFor (cwd fullPath : string) (lines : list string) (index : nat)
           (text : string) : SearchResult :=
  {| file := Path.relative cwd (ANGULAR_PROJECT_PATH cwd) fullPath;
     line := index + 1;
     context := Js.trim text;
     excerpt := Js.join Js.nl (Js.slice lines (Nat.max 0 (index - 2)) (index + 3)) |}.

(** *** The corpus and its hits, as the specification words them

    These definitions are written from the description of the search
    and share nothing with [searchFiles], [searchFile] and [searchLine]:
    they read the tree by the kind of its entries, and a text by its
    numbered lines. *)

(** The files of the corpus under a directory, each with its text: depth
    first, in the order of the directory's entries. A sub-directory is
    entered unless its name starts with a dot or is [node_modules] or
    [dist]; a regular file belongs to the corpus when its extension is
    listed and it can be read. *)
Fixpoint corpusFiles (allowedTypes : list string) (dir : string) (n : node)
  : list (string * string) :=
  match n with
  | Dir true items =>
      flat_map (fun entry : string * node =>
                  match snd entry with
                  | Dir _ _ =>
                      if skippedName (fst entry) then []
                      else corpusFiles allowedTypes (Path.join dir (fst entry)) (snd entry)
                  | File (Some content) =>
                      if Js.arrayIncludes allowedTypes (Path.extname (fst entry)) then
                        [(Path.join dir (fst entry), content)]
                      else []
                  | _ => []
                  end) items
  | _ => []
  end.

(** The lines of a text that contain the query, both taken in lower case:
    each with its index, in ascending order. *)
Definition matchingLines (query : string) (lines : list string) : list (nat * string) :=
  filter (fun numbered => Js.includes (Js.toLowerCase (snd numbered)) (Js.toLowerCase query))
         (combine (seq 0 (List.length lines)) lines).

(** All matching lines of the corpus under [searchDir] as hits: files in
    traversal order, lines ascending within a file. *)
Definition corpusHits (cwd : string) (fs : node) (searchDir query : string)
           (allowedTypes : list string) : list SearchResult :=
  match nodeAt cwd fs searchDir with
  | Some n =>
      flat_map (fun file : string * string =>
                  let lines := Js.split Js.newline (snd file) in
                  map (fun numbered => hitFor cwd (fst file) lines (fst numbered) (snd numbered))
                      (matchingLines query lines))
               (corpusFiles allowedTypes searchDir n)
  | None => []
  end.

(** One of the four words [generateRelatedSearches] looks for occurs in
    the query, whatever its case. *)
Definition hasKnownWord (query : string) : bool :=
  Js.includes (Js.toLowerCase query) "component"
  || Js.includes (Js.toLowerCase query) "service"
  || Js.includes (Js.toLowerCase query) "signal"
  || Js.includes (Js.toLowerCase query) "interface".

Definition generateRelatedSearches (query : string) (results : list SearchResult)
  : list string :=
  let suggestions : list string := [] in
  let suggestions :=
    if Js.includes (Js.toLowerCase query) "component" then
      (suggestions ++ ["selector"; "template"; "standalone"])%list
    else if Js.includes (Js.toLowerCase query) "service" then
      (suggestions ++ ["inject"; "injectable"; "provider"])%list
    else if Js.includes (Js.toLowerCase query) "signal" then
      (suggestions ++ ["computed"; "effect"; "set"])%list
    else if Js.includes (Js.toLowerCase query) "interface" then
      (suggestions ++ ["type"; "export"; "extends"])%list
    else suggestions in
  let suggestions :=
    (suggestions ++ [ (query ++ " component")%string; (query ++ " service")%string;
                      (query ++ " interface")%string ])%list in
  Js.slice suggestions 0 5.

(** [[...new Set(xs)]]: the first occurrence of every element, in order. *)
Fixpoint distinct (xs : list string) : list string :=
  match xs with
  | [] => []
  | x :: rest => x :: filter (fun y => negb (y =? x)) (distinct rest)
  end.

End FileOperations.

(* ================================================================= *)
(** ** Regular expressions

    The patterns of the source are sequences of literals, character
    classes, greedy repetitions of a class, and capturing groups of such
    sequences. Matching is the backtracking search of ECMAScript: leftmost
    start, each repetition as long as the rest allows. *)

Module RegExp.

Inductive atom : Type :=
| Lit (s : string)
| Cls (p : ascii -> bool)
| Star (p : ascii -> bool)
| Plus (p : ascii -> bool).

Inductive item : Type :=
| Atom (a : atom)
| Group (atoms : list atom).

Definition regex : Type := list item.

(** Greedy [p*] followed by the continuation [k]. *)
Fixpoint star {R} (p : ascii -> bool) (s : string) (k : string -> option R) : option R :=
  match s with
  | EmptyString => k s
  | String c s' =>
      if p c then
        match star p s' k with
        | Some r => Some r
        | None => k s
        end
      else k s
  end.

Definition matchAtom {R} (a : atom) (s : string) (k : string -> option R) : option R :=
  match a with
  | Lit l =>
      match Js.dropPrefix l s with
      | Some rest => k rest
      | None => None
      end
  | Cls p =>
      match s with
      | String c s' => if p c then k s' else None
      | EmptyString => None
      end
  | Star p => star p s k
  | Plus p =>
      match s with
      | String c s' => if p c then star p s' k else None
      | EmptyString => None
      end
  end.

Fixpoint matchAtoms {R} (atoms : list atom) (s : string) (k : string -> option R) : option R :=
  match atoms with
  | [] => k s
  | a :: rest => matchAtom a s (fun s' => matchAtoms rest s' k)
  end.

(** The part of [s] read before [rest] was left. *)
Definition consumed (s rest : string) : string :=
  String.substring 0 (String.length s - String.length rest) s.

(** A match that starts at the head of [s]: the captures and what is left. *)
Fixpoint matchItems (r : regex) (s : string) (captures : list string)
  : option (list string * string) :=
  match r with
  | [] => Some (captures, s)
  | Atom a :: r' => matchAtom a s (fun s' => matchItems r' s' captures)
  | Group atoms :: r' =>
      matchAtoms atoms s
        (fun s' => matchItems r' s' (captures ++ [consumed s s'])%list)
  end.

(** The match array: the whole match, then the captures. *)
Definition matchHere (r : regex) (s : string) : option (list string) :=
  match matchItems r s [] with
  | Some (captures, rest) => Some (consumed s rest :: captures)
  | None => None
  end.

(** [s.match(r)] without the [g] flag; [None] is [null]. *)
Fixpoint exec (r : regex) (s : string) : option (list string) :=
  match matchHere r s with
  | Some m => Some m
  | None =>
      match s with
      | EmptyString => None
      | String _ s' => exec r s'
      end
  end.

(** [r.test(s)] on a fresh expression. *)
Definition test (r : regex) (s : string) : bool :=
  match exec r s with
  | Some _ => true
  | None => false
  end.

(** [s.match(r)] with the [g] flag: all matches, none overlapping; [skip]
    counts the characters still inside the previous match. *)
Fixpoint matchAllFrom (r : regex) (s : string) (skip : nat) : list string :=
  match skip with
  | S skip' =>
      match s with
      | EmptyString => []
      | String _ s' => matchAllFrom r s' skip'
      end
  | O =>
      match matchHere r s with
      | Some (whole :: _) =>
          whole :: match s with
                   | EmptyString => []
                   | String _ s' => matchAllFrom r s' (String.length whole - 1)
                   end
      | _ =>
          match s with
          | EmptyString => []
          | String _ s' => matchAllFrom r s' 0
          end
      end
  end.

Definition matchAll (r : regex) (s : string) : list string := matchAllFrom r s 0.

(** Character classes. [\s] is the white space of the ASCII range. *)
Definition space : ascii -> bool := Js.isSpace.

Definition word (c : ascii) : bool :=
  let n := nat_of_ascii c in
  (((48 <=? n) && (n <=? 57)) || ((65 <=? n) && (n <=? 90))
   || ((97 <=? n) && (n <=? 122)) || (n =? 95))%nat.

Definition oneOf (chars : list ascii) (c : ascii) : bool :=
  existsb (Ascii.eqb c) chars.

Definition noneOf (chars : list ascii) (c : ascii) : bool :=
  negb (oneOf chars c).

(** [.]: anything but a line terminator. *)
Definition dot : ascii -> bool := noneOf [ascii_of_nat 10; ascii_of_nat 13].

(** The characters with a meaning of their own in a pattern. *)
Definition isSyntaxCharacter : ascii -> bool :=
  oneOf ["\"; "^"; "$"; "."; "*"; "+"; "?"; "("; ")"; "["; "]"; "{"; "}"; "|"]%char.

Fixpoint isPlain (s : string) : bool :=
  match s with
  | EmptyString => true
  | String c s' => negb (isSyntaxCharacter c) && isPlain s'
  end.

(** *** What a pattern reads

    The words of a pattern, without regard to the order in which the
    search tries them. *)

Definition atomReads (a : atom) (w : string) : Prop :=
  match a with
  | Lit l => w = l
  | Cls p => exists c, w = String c EmptyString /\ p c = true
  | Star p => Js.allChars p w = true
  | Plus p => w <> EmptyString /\ Js.allChars p w = true
  end.

Fixpoint atomsRead (atoms : list atom) (w : string) : Prop :=
  match atoms with
  | [] => w = EmptyString
  | a :: rest =>
      exists w1 w2, w = w1 ++ w2 /\ atomReads a w1 /\ atomsRead rest w2
  end.

(** [itemsRead r w captures]: [r] reads the word [w], its groups reading
    [captures] in order. *)
Fixpoint itemsRead (r : regex) (w : string) (captures : list string) : Prop :=
  match r with
  | [] => w = EmptyString /\ captures = []
  | Atom a :: r' =>
      exists w1 w2, w = w1 ++ w2 /\ atomReads a w1 /\ itemsRead r' w2 captures
  | Group atoms :: r' =>
      exists w1 w2 captures',
        w = w1 ++ w2 /\ atomsRead atoms w1
        /\ captures = w1 :: captures' /\ itemsRead r' w2 captures'
  end.

End RegExp.

(* ================================================================= *)
(** ** [utils/analysis-helper.ts] *)

Module AnalysisHelper.

Import Fs.
Import RegExp.

Record ServiceInfo : Type := {
  name : string;
  path : string;
  purpose : string;
  category : string;
  patterns : list string;
  dependencies : list string
}.

(** [ComponentInfo] of [types/index.ts], in a module of its own because it
    shares field names with [ServiceInfo]. The number [sizeKB] has at most
    two decimals; the field holds it in hundredths. *)
Module ComponentInfo.
Record t : Type := {
  name : string;
  path : string;
  type : string;
  sizeKB : nat;
  features : list string
}.
End ComponentInfo.

Definition getServicePurpose (name content : string) : string :=
  if name =? "layout.service.ts" then "Responsive layout and sidebar state management"
  else if name =? "theme.service.ts" then "Dark/light theme switching with system detection"
  else if name =? "local-storage.service.ts" then "IndexedDB data persistence with reactive updates"
  else "Angular service providing application functionality".

Definition getServiceCategory (path : string) : string :=
  if Js.includes path "core/services" then "core"
  else if Js.includes path "shared/services" then "utility"
  else if Js.includes path "storage" then "data"
  else "utility".

(** [if (content.includes(needle)) list.push(label)], in sequence. *)
Definition pushIf (content : string) (pushed : list string) (rule : string * string)
  : list string :=
  if Js.includes content (fst rule) then (pushed ++ [snd rule])%list else pushed.

Definition getComponentType (path : string) : string :=
  if Js.includes path "shared/components/ui" then "UI Component"
  else if Js.includes path "layout/" then "Layout Component"
  else if Js.includes path "features/" then "Feature Component"
  else if Js.includes path "app.component" then "Root Component"
  else "Component".

Definition analyzeComponentFeatures (content : string) : list string :=
  fold_left (pushIf content)
    [ ("standalone: true", "Standalone");
      ("signal(", "Signals");
      ("computed(", "Computed");
      ("inject(", "inject()");
      ("@Input", "Inputs");
      ("@Output", "Outputs");
      ("OnInit", "Lifecycle");
      ("aria-", "Accessibility") ] [].

(** [Math.round(size / 1024 * 100)], the hundredths of
    [Math.round(size / 1024 * 100) / 100]: the division by 1024 and the
    product are exact in double precision for a size below 2^53 / 100, and
    [Math.round] rounds a half upwards. *)
Definition roundedHundredthsKB (size : nat) : nat := (size * 100 + 512) / 1024.

Definition analyzeServicePatterns (content : string) : list string :=
  fold_left (pushIf content)
    [ ("Injectable", "Injectable");
      ("signal(", "Signals");
      ("BehaviorSubject", "Reactive");
      ("inject(", "Modern DI");
      ("computed(", "Computed");
      ("providedIn: 'root'", "Singleton") ] [].

(** [/import.*from ['Q].*['Q];/g], where Q stands for the double quote. *)
Definition importLine : regex :=
  [ Atom (Lit "import"); Atom (Star dot); Atom (Lit "from ");
    Atom (Cls (oneOf ["'"%char; Js.dquote])); Atom (Star dot);
    Atom (Cls (oneOf ["'"%char; Js.dquote])); Atom (Lit ";") ].

Definition analyzeServiceDependencies (content : string) : list string :=
  let imports := matchAll importLine content in
  let dependencies :=
    fold_left (fun deps imp =>
                 fold_left (pushIf imp)
                   [ ("@angular/core", "Angular Core");
                     ("rxjs", "RxJS");
                     ("./", "Local Service") ] deps)
              imports [] in
  FileOperations.distinct dependencies.

Section Env.

Variable cwd : string.

(** The branch of [findComponentFiles] that reads one file; [stats.size]
    is the length of what [readFile] returned. *)
Definition readComponent (fullPath : string) (entryName : string) (item : node)
           (components : list ComponentInfo.t) : list ComponentInfo.t :=
  match readFile item with
  | Some content =>
      let relativePath := Path.relative cwd (FileOperations.ANGULAR_PROJECT_PATH cwd) fullPath in
      (components ++
       [ {| ComponentInfo.name := Js.replace entryName ".component.ts" "";
            ComponentInfo.path := relativePath;
            ComponentInfo.type := getComponentType relativePath;
            ComponentInfo.sizeKB := roundedHundredthsKB (String.length content);
            ComponentInfo.features := analyzeComponentFeatures content |} ])%list
  | None => components
  end.

(** The closure [searchFiles] of [findComponentFiles]. *)
Fixpoint searchComponentFiles (currentDir : string) (n : node)
         (components : list ComponentInfo.t) {struct n} : list ComponentInfo.t :=
  match n with
  | Dir true items =>
      (fix forItems (items : list (string * node)) (components : list ComponentInfo.t)
         {struct items} : list ComponentInfo.t :=
         match items with
         | [] => components
         | (entryName, item) :: rest =>
             let fullPath := Path.join currentDir entryName in
             forItems rest
               (if isDirectory item && negb (Js.startsWith entryName ".")
                   && negb (entryName =? "node_modules") then
                  searchComponentFiles fullPath item components
                else if Js.endsWith entryName ".component.ts" then
                  readComponent fullPath entryName item components
                else components)
         end) items components
  | _ => components
  end.

Definition findComponentFiles (fs : node) (dir : string) : list ComponentInfo.t :=
  match nodeAt cwd fs dir with
  | Some n => searchComponentFiles dir n []
  | None => []
  end.

(** The branch of [findServiceFiles] that reads one file. *)
Definition readService (fullPath : string) (entryName : string) (item : node)
           (services : list ServiceInfo) : list ServiceInfo :=
  match readFile item with
  | Some content =>
      let relativePath := Path.relative cwd (FileOperations.ANGULAR_PROJECT_PATH cwd) fullPath in
      (services ++ [ {| name := Js.replace entryName ".service.ts" "";
                        path := relativePath;
                        purpose := getServicePurpose entryName content;
                        category := getServiceCategory relativePath;
                        patterns := analyzeServicePatterns content;
                        dependencies := analyzeServiceDependencies content |} ])%list
  | None => services
  end.

(** The closure [searchFiles] of [findServiceFiles]. *)
Fixpoint searchServiceFiles (currentDir : string) (n : node) (services : list ServiceInfo)
         {struct n} : list ServiceInfo :=
  match n with
  | Dir true items =>
      (fix forItems (items : list (string * node)) (services : list ServiceInfo)
         {struct items} : list ServiceInfo :=
         match items with
         | [] => services
         | (entryName, item) :: rest =>
             let fullPath := Path.join currentDir entryName in
             forItems rest
               (if isDirectory item then searchServiceFiles fullPath item services
                else if Js.endsWith entryName ".service.ts" then
                  readService fullPath entryName item services
                else services)
         end) items services
  | _ => services
  end.

Definition findServiceFiles (fs : node) (dir : string) : list ServiceInfo :=
  match nodeAt cwd fs dir with
  | Some n => searchServiceFiles dir n []
  | None => []
  end.

End Env.

End AnalysisHelper.

(* ================================================================= *)
(** ** [tools/search-codebase.js] *)

Module SearchCodebase.

Import Fs.
Import FileOperations.

(** What the handler computes before it renders the report. *)
Record SearchReport : Type := {
  results : list SearchResult;
  totalFiles : nat;
  matchedFiles : nat
}.

Section Env.

Variable cwd : string.

(** [handler({ query, fileTypes, directory })]; [inr] is the message of the
    error the handler catches. *)
Definition handler (fs : node) (query : string) (fileTypes : option (list string))
           (directory : option string) : SearchReport + string :=
  let searchDir :=
    match directory with
    | Some d => if d =? "" then ANGULAR_PROJECT_PATH cwd
                else Path.resolve cwd [ANGULAR_PROJECT_PATH cwd; d]
    | None => ANGULAR_PROJECT_PATH cwd
    end in
  let allowedTypes :=
    match fileTypes with
    | Some types => types
    | None => ALLOWED_EXTENSIONS
    end in
  if negb (Js.startsWith searchDir (Path.resolve cwd [ANGULAR_PROJECT_PATH cwd])) then
    inr "Search directory is outside project directory"
  else
    let results := performSearch cwd fs searchDir query allowedTypes in
    let totalFiles := countSearchableFiles cwd fs searchDir allowedTypes in
    let matchedFiles := List.length (distinct (map file results)) in
    inl {| results := results; totalFiles := totalFiles; matchedFiles := matchedFiles |}.

End Env.

End SearchCodebase.

(* ================================================================= *)
(** ** [tools/analyze-component-usage.ts] *)

Module ComponentUsageTool.

Import Fs.
Import RegExp.

Inductive UsageType : Type := template | typescript.

Inductive Category : Type := ui | layout | feature | external.

Record UsageLocation : Type := {
  file : string;
  type : UsageType;
  line : nat;
  context : string;
  usage : string
}.

Record ComponentUsage : Type := {
  component : string;
  selector : string;
  usedIn : list UsageLocation;
  totalUsages : nat;
  importPath : string;
  category : Category
}.

(** *** [Map<string, ComponentUsage>]

    Entries in insertion order. The objects are reached through the map
    only, so a mutation of the object that [get] returns is an update of
    its entry. *)

Definition ComponentMap : Type := list (string * ComponentUsage).

Definition has (m : ComponentMap) (key : string) : bool :=
  existsb (fun entry => fst entry =? key) m.

(** [m.set(key, value)]: an existing key keeps its place. *)
Fixpoint set (m : ComponentMap) (key : string) (value : ComponentUsage) : ComponentMap :=
  match m with
  | [] => [(key, value)]
  | (k, v) :: rest =>
      if k =? key then (key, value) :: rest
      else (k, v) :: set rest key value
  end.

(** [usage.usedIn.push(location); usage.totalUsages++]. *)
Definition recordUsage (location : UsageLocation) (u : ComponentUsage) : ComponentUsage :=
  {| component := component u;
     selector := selector u;
     usedIn := (usedIn u ++ [location])%list;
     totalUsages := totalUsages u + 1;
     importPath := importPath u;
     category := category u |}.

(** The mutation above on the object [m.get(key)]. *)
Fixpoint mutate (m : ComponentMap) (key : string) (location : UsageLocation) : ComponentMap :=
  match m with
  | [] => []
  | (k, v) :: rest =>
      if k =? key then (k, recordUsage location v) :: rest
      else (k, v) :: mutate rest key location
  end.

(** [Array.from(m.values())]. *)
Definition values (m : ComponentMap) : list ComponentUsage := map snd m.

(** The counter of a component is the length of its list of usages. *)
Definition counted (u : ComponentUsage) : Prop :=
  totalUsages u = List.length (usedIn u).

Definition allCounted (m : ComponentMap) : Prop :=
  Forall (fun entry => counted (snd entry)) m.

(** [a] may stand before [b] in descending order of [totalUsages]. *)
Definition moreUsed (a b : ComponentUsage) : Prop := totalUsages b <= totalUsages a.

(** *** The patterns *)

Definition quotes2 : list ascii := ["'"%char; Js.dquote].
Definition quotes3 : list ascii := ["'"%char; Js.dquote; "`"%char].

(** [/import\s+{([^}]+)}\s+from\s+['Q]([^'Q]+)['Q]/], where Q stands for
    the double quote. *)
Definition importStatement : regex :=
  [ Atom (Lit "import"); Atom (Plus space); Atom (Lit "{");
    Group [Plus (noneOf ["}"%char])]; Atom (Lit "}"); Atom (Plus space);
    Atom (Lit "from"); Atom (Plus space); Atom (Cls (oneOf quotes2));
    Group [Plus (noneOf quotes2)]; Atom (Cls (oneOf quotes2)) ].

(** [/imports:\s*\[([^\]]+)\]/] *)
Definition importsArray : regex :=
  [ Atom (Lit "imports:"); Atom (Star space); Atom (Lit "[");
    Group [Plus (noneOf ["]"%char])]; Atom (Lit "]") ].

(** [/export\s+class\s+(\w+Component)/] *)
Definition componentClass : regex :=
  [ Atom (Lit "export"); Atom (Plus space); Atom (Lit "class"); Atom (Plus space);
    Group [Plus word; Lit "Component"] ].

(** [/selector:\s*['Q`]([^'Q`]+)['Q`]/], where Q stands for the double
    quote. *)
Definition selectorField : regex :=
  [ Atom (Lit "selector:"); Atom (Star space); Atom (Cls (oneOf quotes3));
    Group [Plus (noneOf quotes3)]; Atom (Cls (oneOf quotes3)) ].

Definition extractComponentName (content filePath : string) : option string :=
  match exec componentClass content with
  | Some classMatch => nth_error classMatch 1
  | None => None
  end.

Definition extractSelector (content : string) : string :=
  match exec selectorField content with
  | Some selectorMatch => nth 1 selectorMatch ""
  | None => "unknown-selector"
  end.

Definition determineComponentCategory (filePath : string) : Category :=
  if Js.includes filePath "shared/components/ui" then ui
  else if Js.includes filePath "layout/" then layout
  else if Js.includes filePath "features/" then feature
  else external.

Definition getContextLines (lines : list string) (targetIndex radius : nat) : string :=
  let start := Nat.max 0 (targetIndex - radius) in
  let stop := Nat.min (List.length lines) (targetIndex + radius + 1) in
  Js.join Js.nl
    (Js.mapiFrom
       (fun line index =>
          let lineNum := start + index + 1 in
          let marker := if start + index =? targetIndex then "→ " else "  " in
          marker ++ Js.numberToString lineNum ++ ": " ++ line)%nat
       (Js.slice lines start stop) 0).

(** The body shared by the two [forEach] over listed names in
    [scanTypeScriptFile]. *)
Definition recordListed (filePath : string) (lines : list string) (index : nat)
           (includeContext : bool) (describe : string -> string)
           (m : ComponentMap) (listed : string) : ComponentMap :=
  if has m listed then
    mutate m listed
      {| file := filePath;
         type := typescript;
         line := index + 1;
         context := if includeContext then getContextLines lines index 2 else "";
         usage := describe listed |}
  else m.

(** The names of a captured list: [capture.split(',').map(x => x.trim())]. *)
Definition listedNames (capture : string) : list string :=
  map Js.trim (Js.split ","%char capture).

(** The body of [lines.forEach((line, index) => ...)] in [scanTypeScriptFile]. *)
Definition scanTypeScriptLine (filePath : string) (lines : list string)
           (includeContext : bool) (line : string) (index : nat) (m : ComponentMap)
  : ComponentMap :=
  let m :=
    match exec importStatement line with
    | Some importMatch =>
        fold_left (recordListed filePath lines index includeContext
                     (fun _ => "Import: " ++ Js.trim line))
                  (listedNames (nth 1 importMatch "")) m
    | None => m
    end in
  match exec importsArray line with
  | Some importsArrayMatch =>
      fold_left (recordListed filePath lines index includeContext
                   (fun ref => "Component Import: " ++ ref))
                (listedNames (nth 1 importsArrayMatch "")) m
  | None => m
  end.

Definition scanTypeScriptFile (content filePath : string) (m : ComponentMap)
           (includeContext : bool) : ComponentMap :=
  let lines := Js.split Js.newline content in
  Js.forEach (scanTypeScriptLine filePath lines includeContext) lines m.

(** The test of [new RegExp(`<${selector}[\\s>]`, 'g')] for a selector
    without syntax characters. *)
Definition tagTest (selector : string) : string -> bool :=
  test [ Atom (Lit "<"); Atom (Lit selector);
         Atom (Cls (fun c => space c || Ascii.eqb c ">"%char)) ].




(** The key and the selector stay, the counter gains [gain]. *)
Definition gains (gain : ComponentUsage -> nat) (m m' : ComponentMap) : Prop :=
  Forall2 (fun entry entry' =>
             fst entry' = fst entry
             /\ selector (snd entry') = selector (snd entry)
             /\ totalUsages (snd entry') = totalUsages (snd entry) + gain (snd entry))
          m m'.

(** What the usage scan may change of a component: it appends usages and
    adds their number to the counter. *)
Definition grows (before after : ComponentUsage) : Prop :=
  component after = component before
  /\ selector after = selector before
  /\ importPath after = importPath before
  /\ category after = category before
  /\ exists added,
       usedIn after = (usedIn before ++ added)%list
       /\ totalUsages after = totalUsages before + List.length added.

(** The same keys in the same order, each component grown. *)
Definition growsTo (m m' : ComponentMap) : Prop :=
  Forall2 (fun entry entry' => fst entry' = fst entry /\ grows (snd entry) (snd entry'))
          m m'.

(** Every component is stored under its name, and no name twice. *)
Definition keyed (m : ComponentMap) : Prop :=
  NoDup (map fst m) /\ Forall (fun entry => component (snd entry) = fst entry) m.

(** A name the discovery accepts: word characters, then [Component]. *)
Definition componentNamed (name : string) : Prop :=
  exists stem,
    name = stem ++ "Component" /\ stem <> "" /\ Js.allChars word stem = true.

(** *** The lines of a script, by their shape

    A script given line by line, each line by the way it is written. This
    description does not use the patterns above nor the search for them:
    it says where the names stand in a line. *)






Section Env.

(** [process.cwd()] when the module is loaded. *)
Variable cwd : string.

(** [new RegExp(source, 'g')] for a source that holds a syntax character
    outside the tail the template literal adds: the test it compiles to, or
    [None] when the constructor throws a [SyntaxError]. *)
Variable RegExpOther : string -> option (string -> bool).

(** [new RegExp(`<${selector}[\\s>]`, 'g')], then [.test(line)]. *)
Definition selectorRegex (selector : string) : option (string -> bool) :=
  if isPlain selector then
    Some (test [ Atom (Lit "<"); Atom (Lit selector);
                 Atom (Cls (fun c => space c || Ascii.eqb c ">"%char)) ])
  else RegExpOther ("<" ++ selector ++ "[\s>]").

(** [componentUsages.forEach((usage, componentName) => ...)] on one line of
    a template. The boolean tells that [new RegExp] threw: the entries
    before are updated, the others untouched. *)
Fixpoint scanTemplateLine (filePath : string) (lines : list string)
         (includeContext : bool) (line : string) (index : nat) (m : ComponentMap)
  : ComponentMap * bool :=
  match m with
  | [] => ([], false)
  | (componentName, u) :: rest =>
      match selectorRegex (selector u) with
      | None => (m, true)
      | Some selectorTest =>
          let u' :=
            if selectorTest line then
              recordUsage
                {| file := filePath;
                   type := template;
                   line := index + 1;
                   context := if includeContext then getContextLines lines index 1 else "";
                   usage := "Template: <" ++ selector u ++ ">" |} u
            else u in
          let (rest', threw) :=
            scanTemplateLine filePath lines includeContext line index rest in
          ((componentName, u') :: rest', threw)
      end
  end.

(** [lines.forEach((line, index) => ...)] of [scanTemplateFile]: an
    exception ends the loop, and the caller swallows it. *)
Fixpoint scanTemplateLines (filePath : string) (lines : list string)
         (includeContext : bool) (remaining : list string) (index : nat)
         (m : ComponentMap) : ComponentMap :=
  match remaining with
  | [] => m
  | line :: remaining' =>
      let (m', threw) := scanTemplateLine filePath lines includeContext line index m in
      if threw then m'
      else scanTemplateLines filePath lines includeContext remaining' (S index) m'
  end.

Definition scanTemplateFile (content filePath : string) (m : ComponentMap)
           (includeContext : bool) : ComponentMap :=
  let lines := Js.split Js.newline content in
  scanTemplateLines filePath lines includeContext lines 0 m.

(** [scanDirectory(dirPath, fileHandler)]. The handler receives, with the
    path, the entry found there, which is what it can read from the path. *)
Fixpoint scanDirectory {St} (fileHandler : string -> node -> St -> St)
         (dirPath : string) (n : node) (st : St) {struct n} : St :=
  match n with
  | Dir true items =>
      (fix forItems (items : list (string * node)) (st : St) {struct items} : St :=
         match items with
         | [] => st
         | (entryName, item) :: rest =>
             let fullPath := Path.join dirPath entryName in
             forItems rest
               (if FileOperations.entersDirectory entryName item then
                  scanDirectory fileHandler fullPath item st
                else if isFile item then fileHandler fullPath item st
                else st)
         end) items st
  | _ => st
  end.

(** [scanDirectory] from the path, in the tree rooted at [/]. *)
Definition scanDirectoryAt {St} (fileHandler : string -> node -> St -> St)
           (fs : node) (dirPath : string) (st : St) : St :=
  match nodeAt cwd fs dirPath with
  | Some n => scanDirectory fileHandler dirPath n st
  | None => st
  end.

(** The handler of [discoverComponents]. *)
Definition discoverFile (projectPath filePath : string) (item : node) (m : ComponentMap)
  : ComponentMap :=
  if Js.endsWith filePath ".component.ts" then
    match readFile item with
    | Some content =>
        let componentName := extractComponentName content filePath in
        let selector := extractSelector content in
        match componentName with
        | Some componentName =>
            if negb (componentName =? "") && negb (selector =? "") then
              let relativePath := Path.relative cwd projectPath filePath in
              set m componentName
                {| component := componentName;
                   selector := selector;
                   usedIn := [];
                   totalUsages := 0;
                   importPath := relativePath;
                   category := determineComponentCategory relativePath |}
            else m
        | None => m
        end
    | None => m
    end
  else m.

Definition discoverComponents (fs : node) (projectPath : string) (m : ComponentMap)
  : ComponentMap :=
  let srcPath := Path.join projectPath "src" in
  scanDirectoryAt (discoverFile projectPath) fs srcPath m.

(** The handler of [scanForUsages]. *)
Definition scanFile (projectPath : string) (includeContext : bool)
           (filePath : string) (item : node) (m : ComponentMap) : ComponentMap :=
  let ext := Path.extname filePath in
  if Js.arrayIncludes FileOperations.ALLOWED_EXTENSIONS ext then
    match readFile item with
    | Some content =>
        let relativePath := Path.relative cwd projectPath filePath in
        if ext =? ".ts" then scanTypeScriptFile content relativePath m includeContext
        else if ext =? ".html" then scanTemplateFile content relativePath m includeContext
        else m
    | None => m
    end
  else m.

Definition scanForUsages (fs : node) (projectPath : string) (m : ComponentMap)
           (includeContext : bool) : ComponentMap :=
  let srcPath := Path.join projectPath "src" in
  scanDirectoryAt (scanFile projectPath includeContext) fs srcPath m.

(** The map after both phases of [analyzeComponentUsage]. *)
Definition scanned (fs : node) (projectPath : string) (includeContext : bool)
  : ComponentMap :=
  scanForUsages fs projectPath (discoverComponents fs projectPath []) includeContext.

(** [(a, b) => b.totalUsages - a.totalUsages] *)
Definition byTotalUsages (a b : ComponentUsage) : Z :=
  (Z.of_nat (totalUsages b) - Z.of_nat (totalUsages a))%Z.

(** [usage => usage.component.toLowerCase().includes(target.toLowerCase())
             || usage.selector.toLowerCase().includes(target.toLowerCase())] *)
Definition matchesTarget (targetComponent : string) (u : ComponentUsage) : bool :=
  Js.includes (Js.toLowerCase (component u)) (Js.toLowerCase targetComponent)
  || Js.includes (Js.toLowerCase (selector u)) (Js.toLowerCase targetComponent).

Definition analyzeComponentUsage (fs : node) (projectPath targetComponent : string)
           (includeContext : bool) : list ComponentUsage :=
  let componentUsages : ComponentMap := [] in
  let componentUsages := discoverComponents fs projectPath componentUsages in
  let componentUsages := scanForUsages fs projectPath componentUsages includeContext in
  let results := values componentUsages in
  if negb (targetComponent =? "") then filter (matchesTarget targetComponent) results
  else Js.sort byTotalUsages results.

End Env.

End ComponentUsageTool.

(* ================================================================= *)
(** ** Sample projects *)

Module Scenario.

Import Fs.

Definition cwd : string := "/home/dev/mcp".

Definition projectPath : string := FileOperations.ANGULAR_PROJECT_PATH cwd.

(** A file of the given lines. *)
Definition text (lines : list string) : node := File (Some (Js.join Js.nl lines)).

(** The file system with [items] in [/home/dev/learning-notebook] and
    [siblings] next to it in [/home/dev]. *)
Definition disk (items siblings : list (string * node)) : node :=
  Dir true [("home", Dir true [("dev", Dir true (("learning-notebook", Dir true items)
                                                  :: siblings))])].

(** No pattern with syntax characters is ever compiled in the samples. *)
Definition noRegExp : string -> option (string -> bool) := fun _ => None.

(** A directory next to the project whose name starts with the project's. *)
Definition siblingDisk : node :=
  disk [] [("learning-notebook-evil", Dir true [("notes.ts", text ["secret"])])].

(** Two components; only the second is used, once, in a template. *)
Definition twoComponents : node :=
  disk [("src", Dir true
     [ ("a.component.ts",
        text ["@Component({"; "  selector: 'app-a',"; "})"; "export class AComponent {}"]);
       ("b.component.ts",
        text ["@Component({"; "  selector: 'app-b',"; "})"; "export class BComponent {}"]);
       ("page.html", text ["<div>"; "  <app-b></app-b>"; "</div>"]) ])] [].

(** The second component as the usage scan leaves it, contexts left out. *)
Definition usedComponent : ComponentUsageTool.ComponentUsage :=
  {| ComponentUsageTool.component := "BComponent";
     ComponentUsageTool.selector := "app-b";
     ComponentUsageTool.usedIn :=
       [ {| ComponentUsageTool.file := "src/page.html";
            ComponentUsageTool.type := ComponentUsageTool.template;
            ComponentUsageTool.line := 2;
            ComponentUsageTool.context := "";
            ComponentUsageTool.usage := "Template: <app-b>" |} ];
     ComponentUsageTool.totalUsages := 1;
     ComponentUsageTool.importPath := "src/b.component.ts";
     ComponentUsageTool.category := ComponentUsageTool.external |}.

(** A services directory with a dependency directory inside. *)
Definition servicesWithDependencies : node :=
  disk [("src", Dir true [("app", Dir true [("core", Dir true [("services", Dir true
     [ ("node_modules", Dir true
          [("vendor.service.ts", text ["export class VendorService {}"])]);
       ("theme.service.ts",
        text ["import { Injectable } from '@angular/core';";
              "@Injectable({ providedIn: 'root' })";
              "export class ThemeService {}"]) ])])])])] [].

(** An application directory with a build output directory inside. *)
Definition componentsWithBuild : node :=
  disk [("src", Dir true [("app", Dir true
     [ ("dist", Dir true
          [("old.component.ts", text ["export class OldComponent {}"])]);
       ("app.component.ts",
        text ["@Component({ selector: 'app-root', standalone: true })";
              "export class AppComponent {}"]) ])])] [].

(** A project that holds an executable next to a script. *)
Definition withExecutable : node :=
  disk [ ("tool.exe", text ["MZ signal"]);
         ("main.ts", text ["const x = signal(0);"]) ] [].

(** The hit of a search for [signal] in [main.ts] of [withExecutable]. *)
Definition signalHit : FileOperations.SearchResult :=
  {| FileOperations.file := "main.ts";
     FileOperations.line := 1;
     FileOperations.context := "const x = signal(0);";
     FileOperations.excerpt := "const x = signal(0);" |}.

(** The report of the search tool for [signal] among the [.exe] files of
    [withExecutable]. *)
Definition executableReport : SearchCodebase.SearchReport :=
  {| SearchCodebase.results :=
       [ {| FileOperations.file := "tool.exe";
            FileOperations.line := 1;
            FileOperations.context := "MZ signal";
            FileOperations.excerpt := "MZ signal" |} ];
     SearchCodebase.totalFiles := 1;
     SearchCodebase.matchedFiles := 1 |}.

(** [servicesWithDependencies] without its dependency directory. *)
Definition servicesOnly : node :=
  disk [("src", Dir true [("app", Dir true [("core", Dir true [("services", Dir true
     [ ("theme.service.ts",
        text ["import { Injectable } from '@angular/core';";
              "@Injectable({ providedIn: 'root' })";
              "export class ThemeService {}"]) ])])])])] [].

(** [twoComponents] with a dependency directory that holds a component and
    a template using the first component. *)
Definition twoComponentsWithDependencies : node :=
  disk [("src", Dir true
     [ ("a.component.ts",
        text ["@Component({"; "  selector: 'app-a',"; "})"; "export class AComponent {}"]);
       ("node_modules", Dir true
          [ ("c.component.ts",
             text ["@Component({ selector: 'app-c' })"; "export class CComponent {}"]);
            ("c.html", text ["<app-a></app-a>"]) ]);
       ("b.component.ts",
        text ["@Component({"; "  selector: 'app-b',"; "})"; "export class BComponent {}"]);
       ("page.html", text ["<div>"; "  <app-b></app-b>"; "</div>"]) ])] [].


(** A project with more than 50 lines that hold [x]: 49 in a file of a
    directory, some in a file of a build directory, 3 in a file that comes
    last. *)
Definition manyHits : node :=
  disk [ ("a", Dir true [("long.ts", text (repeat "x" 49))]);
         ("dist", Dir true [("built.ts", text ["x"; "x"])]);
         ("b.ts", text ["x"; "y"; "x"; "x"]) ] [].

End Scenario.

(* ================================================================= *)
(** * Properties *)

(** ** Arrays *)

Lemma forEachFrom_app {A St} (f : A -> nat -> St -> St) (l1 l2 : list A) index st :
  Js.forEachFrom f (l1 ++ l2)%list index st
  = Js.forEachFrom f l2 (index + List.length l1) (Js.forEachFrom f l1 index st).
Proof.
  revert index st.
  induction l1 as [|x l1 IH]; intros index st; simpl.
  - now rewrite Nat.add_0_r.
  - rewrite IH. f_equal. lia.
Qed.

(** A loop whose body only pushes is the concatenation of what each turn
    pushes. *)
Lemma forEachFrom_pushes {A B} (f : A -> nat -> list B -> list B) :
  (forall x index acc, f x index acc = (acc ++ f x index [])%list) ->
  forall l index acc,
    Js.forEachFrom f l index acc
    = (acc ++ List.concat (Js.mapiFrom (fun x i => f x i []) l index))%list.
Proof.
  intros Hpush l.
  induction l as [|x l IH]; intros index acc; simpl.
  - now rewrite app_nil_r.
  - rewrite IH, Hpush. now rewrite <- app_assoc.
Qed.

Lemma In_firstn {A} (x : A) n l : In x (firstn n l) -> In x l.
Proof.
  intros Hin. rewrite <- (firstn_skipn n l). apply in_or_app. now left.
Qed.

Lemma slice_0_firstn {A} (l : list A) n : Js.slice l 0 n = firstn n l.
Proof. unfold Js.slice. now rewrite Nat.sub_0_r. Qed.

Lemma distinct_incl xs x : In x (FileOperations.distinct xs) -> In x xs.
Proof.
  revert x.
  induction xs as [|y xs IH]; intros x; simpl; [easy|].
  intros [->|Hin]; [now left|].
  apply filter_In in Hin. right. now apply IH.
Qed.

Lemma distinct_NoDup xs : NoDup (FileOperations.distinct xs).
Proof.
  induction xs as [|y xs IH]; simpl; constructor.
  - intros Hin. apply filter_In in Hin. destruct Hin as [_ Hneq].
    now rewrite String.eqb_refl in Hneq.
  - now apply NoDup_filter.
Qed.

(** ** Strings *)

Lemma append_assoc (a b c : string) : (a ++ b) ++ c = a ++ (b ++ c).
Proof. induction a as [|x a IH]; simpl; [reflexivity | now rewrite IH]. Qed.

Lemma append_nil_r (a : string) : a ++ "" = a.
Proof. induction a as [|x a IH]; simpl; [reflexivity | now rewrite IH]. Qed.

Lemma allChars_app p a b :
  Js.allChars p (a ++ b) = Js.allChars p a && Js.allChars p b.
Proof.
  induction a as [|x a IH]; simpl; [reflexivity|].
  now rewrite IH, andb_assoc.
Qed.

Lemma allChars_weaken (p q : ascii -> bool) s :
  (forall c, p c = true -> q c = true) ->
  Js.allChars p s = true -> Js.allChars q s = true.
Proof.
  intros Hpq. induction s as [|x s IH]; simpl; [easy|].
  intros H. apply andb_true_iff in H. destruct H as [Hx Hs].
  apply andb_true_iff. auto.
Qed.

Lemma toLowerCase_app a b :
  Js.toLowerCase (a ++ b) = Js.toLowerCase a ++ Js.toLowerCase b.
Proof. induction a as [|x a IH]; simpl; [reflexivity | now rewrite IH]. Qed.

Lemma prefix_nil s : String.prefix "" s = true.
Proof. now destruct s. Qed.

Lemma prefix_app q s t : String.prefix q s = true -> String.prefix q (s ++ t) = true.
Proof.
  revert s. induction q as [|c q IH]; intros s; [intros _; apply prefix_nil|].
  destruct s as [|d s]; simpl; [easy|].
  destruct (ascii_dec c d); [apply IH | easy].
Qed.

Lemma includes_app_r s t q : Js.includes s q = true -> Js.includes (s ++ t) q = true.
Proof.
  induction s as [|c s IH]; simpl.
  - rewrite orb_false_r. intros H. destruct q; [|easy].
    destruct t; reflexivity.
  - intros H. apply orb_true_iff in H. apply orb_true_iff.
    destruct H as [H|H]; [left | right; now apply IH].
    now apply (prefix_app q (String c s) t).
Qed.

Lemma includes_app_l s t q : Js.includes t q = true -> Js.includes (s ++ t) q = true.
Proof.
  intros H. induction s as [|c s IH]; simpl; [assumption|].
  rewrite IH. apply orb_true_r.
Qed.

(** *** [split] and [join] *)

Lemma split_noChar c s : Js.allChars (Js.noChar c) s = true -> Js.split c s = [s].
Proof.
  induction s as [|x s IH]; simpl; [reflexivity|].
  intros H. apply andb_true_iff in H. destruct H as [Hx Hs].
  unfold Js.noChar in Hx. apply negb_true_iff in Hx. rewrite Hx.
  now rewrite (IH Hs).
Qed.

Lemma split_app_sep c s t :
  Js.allChars (Js.noChar c) s = true ->
  Js.split c (s ++ String c t) = s :: Js.split c t.
Proof.
  induction s as [|x s IH]; simpl.
  - now rewrite Ascii.eqb_refl.
  - intros H. apply andb_true_iff in H. destruct H as [Hx Hs].
    unfold Js.noChar in Hx. apply negb_true_iff in Hx. rewrite Hx.
    now rewrite (IH Hs).
Qed.

(** A text made of lines gives these lines back. *)
Lemma split_join c ls :
  ls <> [] ->
  Forall (fun l => Js.allChars (Js.noChar c) l = true) ls ->
  Js.split c (Js.join (String c "") ls) = ls.
Proof.
  intros Hne Hall. induction Hall as [|l ls Hl Hls IH]; [easy|].
  destruct ls as [|l' ls]; simpl.
  - now apply split_noChar.
  - rewrite split_app_sep by assumption. f_equal. now apply IH.
Qed.

(** *** [trim] *)

Lemma trimStart_spaces a s :
  Js.allChars Js.isSpace a = true -> Js.trimStart (a ++ s) = Js.trimStart s.
Proof.
  induction a as [|x a IH]; simpl; [reflexivity|].
  intros H. apply andb_true_iff in H. destruct H as [Hx Ha].
  rewrite Hx. now apply IH.
Qed.

Lemma trimEnd_spaces s a :
  Js.allChars Js.isSpace a = true -> Js.trimEnd (s ++ a) = Js.trimEnd s.
Proof.
  intros Ha. induction s as [|x s IH]; simpl.
  - induction a as [|y a IHa]; simpl; [reflexivity|].
    simpl in Ha. apply andb_true_iff in Ha. destruct Ha as [Hy Ha].
    rewrite (IHa Ha). now rewrite Hy.
  - now rewrite IH.
Qed.

(** *** [slice] around a line *)

Lemma slice_around {A} (before after : list A) (x : A) :
  let index := List.length before in
  Js.slice (before ++ x :: after) (Nat.max 0 (index - 2)) (index + 3)
  = (skipn (index - 2) before ++ x :: firstn 2 after)%list.
Proof.
  cbv zeta. unfold Js.slice. rewrite Nat.max_0_l.
  rewrite skipn_app.
  assert (Hlen : List.length (skipn (List.length before - 2) before)
                 = List.length before - (List.length before - 2))
    by apply length_skipn.
  replace (List.length before - 2 - List.length before) with 0 by lia.
  rewrite skipn_0, firstn_app, Hlen.
  rewrite firstn_all2 by lia. f_equal.
  replace (List.length before + 3 - (List.length before - 2)
           - (List.length before - (List.length before - 2)))
    with 3 by lia.
  reflexivity.
Qed.

(** ** The search walk *)

Section SearchFacts.

Import Fs FileOperations.

Variable cwd : string.

Lemma searchLine_pushes fullPath query lines line index acc :
  searchLine cwd fullPath query lines line index acc
  = (acc ++ searchLine cwd fullPath query lines line index [])%list.
Proof.
  unfold searchLine.
  destruct (Js.includes _ _); simpl; [reflexivity | now rewrite app_nil_r].
Qed.

Lemma searchFile_fileHits fullPath query item results :
  searchFile cwd fullPath query item results
  = (results ++ fileHits cwd fullPath query item)%list.
Proof.
  unfold searchFile, fileHits, Js.forEach.
  destruct (readFile item) as [content|]; [|now rewrite app_nil_r].
  apply forEachFrom_pushes. intros. apply searchLine_pushes.
Qed.

(** The accumulating closure computes the hits of the files it visits, one
    file after the other. *)
Lemma searchFiles_hits query allowedTypes n :
  forall dir results,
    searchFiles cwd query allowedTypes dir n results
    = (results ++ flat_map (fun visited => fileHits cwd (fst visited) query (snd visited))
                           (searchableFiles allowedTypes dir n))%list.
Proof.
  induction n as [content | readable items IH | content] using Fs.node_ind;
    intros dir results; try (simpl; now rewrite app_nil_r).
  destruct readable; [|simpl; now rewrite app_nil_r].
  simpl. revert results.
  induction IH as [|[name item] rest IHitem _ IHrest]; intros results; simpl.
  - now rewrite app_nil_r.
  - rewrite IHrest, flat_map_app, app_assoc. f_equal.
    destruct (entersDirectory name item).
    + apply IHitem.
    + destruct (isFile item && Js.arrayIncludes allowedTypes (Path.extname name)); simpl.
      * now rewrite app_nil_r, searchFile_fileHits.
      * now rewrite app_nil_r.
Qed.

Lemma countFiles_length allowedTypes n :
  forall dir count,
    countFiles allowedTypes dir n count
    = count + List.length (searchableFiles allowedTypes dir n).
Proof.
  induction n as [content | readable items IH | content] using Fs.node_ind;
    intros dir count; try (simpl; lia).
  destruct readable; [|simpl; lia].
  simpl. revert count.
  induction IH as [|[name item] rest IHitem _ IHrest]; intros count; simpl.
  - lia.
  - rewrite IHrest, length_app.
    destruct (entersDirectory name item).
    + rewrite IHitem. simpl. lia.
    + destruct (isFile item && Js.arrayIncludes allowedTypes (Path.extname name)); simpl; lia.
Qed.

Lemma performSearch_hits fs searchDir query allowedTypes :
  performSearch cwd fs searchDir query allowedTypes
  = firstn 50 (hitsInTraversalOrder cwd fs searchDir query allowedTypes).
Proof.
  unfold performSearch, hitsInTraversalOrder, searchableFilesAt.
  rewrite slice_0_firstn.
  destruct (nodeAt cwd fs searchDir); [|reflexivity].
  now rewrite searchFiles_hits.
Qed.

Lemma countSearchableFiles_length fs searchDir allowedTypes :
  countSearchableFiles cwd fs searchDir allowedTypes
  = List.length (searchableFilesAt cwd fs searchDir allowedTypes).
Proof.
  unfold countSearchableFiles, searchableFilesAt.
  destruct (nodeAt cwd fs searchDir); [|reflexivity].
  now rewrite countFiles_length.
Qed.

Lemma In_mapiFrom {A B} (f : A -> nat -> B) l :
  forall index y, In y (Js.mapiFrom f l index) -> exists x i, In x l /\ y = f x i.
Proof.
  induction l as [|x l IH]; intros index y; simpl; [easy|].
  intros [<-|Hin].
  - exists x, index. auto.
  - destruct (IH _ _ Hin) as (x' & i & Hx & ->). exists x', i. auto.
Qed.

(** Every hit of a file names that file, relative to the project. *)
Lemma fileHits_file fullPath query item r :
  In r (fileHits cwd fullPath query item) ->
  file r = Path.relative cwd (ANGULAR_PROJECT_PATH cwd) fullPath.
Proof.
  unfold fileHits.
  destruct (readFile item) as [content|]; [|easy].
  intros Hin. apply in_concat in Hin. destruct Hin as (hits & Hhits & Hr).
  apply In_mapiFrom in Hhits. destruct Hhits as (l & i & _ & ->).
  unfold searchLine in Hr.
  destruct (Js.includes _ _); simpl in Hr; [|easy].
  destruct Hr as [<-|[]]. reflexivity.
Qed.

Lemma performSearch_files fs searchDir query allowedTypes r :
  In r (performSearch cwd fs searchDir query allowedTypes) ->
  exists visited,
    In visited (searchableFilesAt cwd fs searchDir allowedTypes)
    /\ file r = Path.relative cwd (ANGULAR_PROJECT_PATH cwd) (fst visited).
Proof.
  rewrite performSearch_hits. intros Hin.
  apply In_firstn in Hin. unfold hitsInTraversalOrder in Hin.
  apply in_flat_map in Hin. destruct Hin as (visited & Hvisited & Hr).
  exists visited. split; [assumption|]. now apply fileHits_file with query (snd visited).
Qed.

(** What the callback of [forEach] pushes over the lines of a file, from
    index [index] on, is one hit for every numbered line that contains the
    query. *)
Lemma searchLine_matchingLines fullPath query lines l :
  forall index,
    List.concat (Js.mapiFrom (fun text i => searchLine cwd fullPath query lines text i []) l index)
    = map (fun numbered => hitFor cwd fullPath lines (fst numbered) (snd numbered))
          (filter (fun numbered =>
                     Js.includes (Js.toLowerCase (snd numbered)) (Js.toLowerCase query))
                  (combine (seq index (List.length l)) l)).
Proof.
  induction l as [|text l IH]; intros index; [reflexivity|].
  cbn [Js.mapiFrom List.concat List.length seq combine filter snd].
  rewrite IH. unfold searchLine at 1.
  destruct (Js.includes (Js.toLowerCase text) (Js.toLowerCase query)); reflexivity.
Qed.

Lemma fileHits_matchingLines fullPath query content :
  fileHits cwd fullPath query (File (Some content))
  = map (fun numbered =>
           hitFor cwd fullPath (Js.split Js.newline content) (fst numbered) (snd numbered))
        (matchingLines query (Js.split Js.newline content)).
Proof. unfold fileHits, matchingLines. simpl. apply searchLine_matchingLines. Qed.

(** The files the closure visits yield the hits of the corpus: the walk
    enters the directories the description says, and a visited entry that
    is no readable regular file yields nothing. *)
Lemma searchableFiles_corpusFiles query allowedTypes n :
  forall dir,
    flat_map (fun visited => fileHits cwd (fst visited) query (snd visited))
             (searchableFiles allowedTypes dir n)
    = flat_map (fun file : string * string =>
                  let lines := Js.split Js.newline (snd file) in
                  map (fun numbered => hitFor cwd (fst file) lines (fst numbered) (snd numbered))
                      (matchingLines query lines))
               (corpusFiles allowedTypes dir n).
Proof.
  induction n as [content | readable items IH | content] using Fs.node_ind;
    intros dir; try reflexivity.
  destruct readable; [|reflexivity].
  cbn [searchableFiles corpusFiles].
  induction IH as [|[name item] rest IHitem _ IHrest]; [reflexivity|].
  cbn [flat_map fst snd]. rewrite !flat_map_app, IHrest. f_equal.
  destruct item as [[content|] | readable items | content].
  - unfold entersDirectory. cbn [isDirectory isFile andb].
    destruct (Js.arrayIncludes allowedTypes (Path.extname name)); [|reflexivity].
    cbn [flat_map fst snd]. now rewrite fileHits_matchingLines.
  - unfold entersDirectory. cbn [isDirectory isFile andb].
    destruct (Js.arrayIncludes allowedTypes (Path.extname name)); reflexivity.
  - unfold entersDirectory, skippedName. cbn [isDirectory isFile andb].
    destruct (Js.startsWith name "."); [reflexivity|].
    destruct (name =? "node_modules"); [reflexivity|].
    destruct (name =? "dist"); [reflexivity|].
    apply IHitem.
  - unfold entersDirectory. cbn [isDirectory isFile andb]. reflexivity.
Qed.

Lemma performSearch_corpusHits fs searchDir query allowedTypes :
  performSearch cwd fs searchDir query allowedTypes
  = firstn 50 (corpusHits cwd fs searchDir query allowedTypes).
Proof.
  rewrite performSearch_hits.
  unfold hitsInTraversalOrder, searchableFilesAt, corpusHits.
  destruct (nodeAt cwd fs searchDir); [|reflexivity].
  now rewrite searchableFiles_corpusFiles.
Qed.

(** C2: whatever the query, the starting directory and the extension list,
    [performSearch] returns at most 50 hits, and they are the first 50 (all
    of them when there are fewer) of the matching lines of the corpus taken
    in traversal order: files depth first in directory-entry order, lines
    ascending within a file. The corpus and its matching lines are those of
    [corpusHits], which is written from this description and not from the
    closure of [performSearch]. *)
Theorem performSearch_first_50_in_traversal_order fs searchDir query allowedTypes :
  let hits := corpusHits cwd fs searchDir query allowedTypes in
  let returned := performSearch cwd fs searchDir query allowedTypes in
  List.length returned <= 50
  /\ returned = firstn 50 hits
  /\ List.length returned = Nat.min 50 (List.length hits).
Proof.
  cbv zeta. rewrite performSearch_corpusHits. repeat split.
  - apply firstn_le_length.
  - apply length_firstn.
Qed.

(** The distinct files of a result are at most as many as the files the
    count walk counts. *)
Lemma matched_files_le_counted fs searchDir query allowedTypes :
  List.length (distinct (map file (performSearch cwd fs searchDir query allowedTypes)))
  <= countSearchableFiles cwd fs searchDir allowedTypes.
Proof.
  rewrite countSearchableFiles_length.
  rewrite <- (length_map (fun visited =>
                Path.relative cwd (ANGULAR_PROJECT_PATH cwd) (fst visited))).
  apply NoDup_incl_length; [apply distinct_NoDup|].
  intros f Hf. apply distinct_incl in Hf. apply in_map_iff in Hf.
  destruct Hf as (r & <- & Hr).
  destruct (performSearch_files _ _ _ _ _ Hr) as (visited & Hvisited & ->).
  apply in_map_iff. now exists visited.
Qed.

(** In the report of the search tool, the files with matches are at most
    the files searched. *)
Lemma handler_matched_le_total fs query fileTypes directory report :
  SearchCodebase.handler cwd fs query fileTypes directory = inl report ->
  SearchCodebase.matchedFiles report <= SearchCodebase.totalFiles report.
Proof.
  unfold SearchCodebase.handler.
  destruct (negb (Js.startsWith _ _)); [discriminate|].
  intros [= <-]. simpl. apply matched_files_le_counted.
Qed.

(** C7: the files that appear in the results of a search are files the
    count walk counts, so the number of distinct result files never exceeds
    [countSearchableFiles] for the same directory and extension list. *)
Theorem countSearchableFiles_ge_matched_files fs searchDir query allowedTypes :
  let returned := performSearch cwd fs searchDir query allowedTypes in
  let counted := searchableFilesAt cwd fs searchDir allowedTypes in
  countSearchableFiles cwd fs searchDir allowedTypes = List.length counted
  /\ (forall r, In r returned ->
        exists visited, In visited counted
          /\ file r = Path.relative cwd (ANGULAR_PROJECT_PATH cwd) (fst visited))
  /\ List.length (distinct (map file returned))
     <= countSearchableFiles cwd fs searchDir allowedTypes.
Proof.
  cbv zeta. split; [apply countSearchableFiles_length|]. split.
  - intros r. apply performSearch_files.
  - apply matched_files_le_counted.
Qed.

(** *** One matching line *)

Lemma forEachFrom_no_match fullPath query lines l :
  Forall (fun line => Js.includes (Js.toLowerCase line) (Js.toLowerCase query) = false) l ->
  forall index results,
    Js.forEachFrom (searchLine cwd fullPath query lines) l index results = results.
Proof.
  induction 1 as [|line l Hline _ IH]; intros index results; simpl; [reflexivity|].
  rewrite IH. unfold searchLine. now rewrite Hline.
Qed.

(** C8: a file holds the line [const x = signal(0);], possibly indented,
    and no other line that contains the word in any case. A search for
    [signal], [Signal] or [SIGNAL] then pushes exactly one hit for the
    file: its [context] is the line trimmed and its [excerpt] the two lines
    before and the two lines after, or as many as the file has. *)
Theorem search_signal_one_hit fullPath before after indent trailing query results :
  In query ["signal"; "Signal"; "SIGNAL"] ->
  Forall (fun l => Js.allChars (Js.noChar Js.newline) l = true
                   /\ Js.includes (Js.toLowerCase l) "signal" = false)
         (before ++ after) ->
  Js.allChars (fun c => Js.isSpace c && Js.noChar Js.newline c) (indent ++ trailing) = true ->
  let matching := indent ++ "const x = signal(0);" ++ trailing in
  let content := Js.join Js.nl (before ++ matching :: after) in
  searchFile cwd fullPath query (File (Some content)) results
  = (results ++
     [ {| file := Path.relative cwd (ANGULAR_PROJECT_PATH cwd) fullPath;
          line := List.length before + 1;
          context := "const x = signal(0);";
          excerpt := Js.join Js.nl
                       (skipn (List.length before - 2) before
                        ++ matching :: firstn 2 after) |} ])%list.
Proof.
  intros Hquery Hothers Hblank matching content.
  assert (Hq : Js.toLowerCase query = "signal").
  { simpl in Hquery. destruct Hquery as [<-|[<-|[<-|[]]]]; reflexivity. }
  rewrite allChars_app in Hblank. apply andb_true_iff in Hblank.
  destruct Hblank as [Hindent Htrailing].
  apply Forall_app in Hothers. destruct Hothers as [Hbefore Hafter].
  assert (Hlines : Js.split Js.newline content = (before ++ matching :: after)%list).
  { apply split_join; [now destruct before|].
    apply Forall_app. split; [eapply Forall_impl; [|exact Hbefore]; now intros l [H _]|].
    constructor; [|eapply Forall_impl; [|exact Hafter]; now intros l [H _]].
    assert (Hline : forall s,
               Js.allChars (fun c => Js.isSpace c && Js.noChar Js.newline c) s = true ->
               Js.allChars (Js.noChar Js.newline) s = true).
    { intros s. apply allChars_weaken. intros c Hc. now apply andb_true_iff in Hc. }
    unfold matching. rewrite !allChars_app.
    rewrite (Hline indent Hindent), (Hline trailing Htrailing). reflexivity. }
  assert (Hspace : forall s, Js.allChars (fun c => Js.isSpace c && Js.noChar Js.newline c) s = true ->
                             Js.allChars Js.isSpace s = true).
  { intros s. apply allChars_weaken. intros c Hc. now apply andb_true_iff in Hc. }
  unfold searchFile, Js.forEach. cbn [readFile]. fold content. rewrite Hlines.
  rewrite forEachFrom_app. cbn [Js.forEachFrom].
  assert (Hb : Forall (fun l => Js.includes (Js.toLowerCase l) (Js.toLowerCase query) = false)
                      before)
    by (rewrite Hq; eapply Forall_impl; [|exact Hbefore]; now intros l [_ H]).
  assert (Ha : Forall (fun l => Js.includes (Js.toLowerCase l) (Js.toLowerCase query) = false)
                      after)
    by (rewrite Hq; eapply Forall_impl; [|exact Hafter]; now intros l [_ H]).
  rewrite (@forEachFrom_no_match fullPath query _ before Hb).
  rewrite (@forEachFrom_no_match fullPath query _ after Ha).
  unfold searchLine. rewrite Hq.
  assert (Hmatch : Js.includes (Js.toLowerCase matching) "signal" = true).
  { unfold matching. rewrite !toLowerCase_app.
    apply includes_app_l, includes_app_r. reflexivity. }
  rewrite Hmatch. cbn [Nat.add]. rewrite slice_around.
  f_equal. f_equal. f_equal.
  unfold matching, Js.trim.
  rewrite trimStart_spaces by auto.
  change (Js.trimStart ("const x = signal(0);" ++ trailing))
    with ("const x = signal(0);" ++ trailing).
  now rewrite trimEnd_spaces by auto.
Qed.

End SearchFacts.

(** ** The usage graph *)

Section UsageFacts.

Import Fs RegExp ComponentUsageTool.

Variable cwd : string.
Variable RegExpOther : string -> option (string -> bool).

Lemma recordUsage_counted location u : counted u -> counted (recordUsage location u).
Proof.
  unfold counted. intros H. simpl. rewrite length_app, H. reflexivity.
Qed.

Lemma set_counted m key value : allCounted m -> counted value -> allCounted (set m key value).
Proof.
  unfold allCounted. intros Hm Hvalue.
  induction Hm as [|[k v] rest Hv Hrest IH]; simpl.
  - now constructor.
  - destruct (k =? key); constructor; auto.
Qed.

Lemma mutate_counted m key location : allCounted m -> allCounted (mutate m key location).
Proof.
  unfold allCounted. intros Hm.
  induction Hm as [|[k v] rest Hv Hrest IH]; simpl; [constructor|].
  destruct (k =? key); constructor; auto.
  now apply recordUsage_counted.
Qed.

Lemma recordListed_counted filePath lines index includeContext describe m listed :
  allCounted m ->
  allCounted (recordListed filePath lines index includeContext describe m listed).
Proof.
  intros Hm. unfold recordListed.
  destruct (has m listed); [now apply mutate_counted | assumption].
Qed.

Lemma fold_left_invariant {A B} (P : A -> Prop) (f : A -> B -> A) l :
  (forall a b, P a -> P (f a b)) -> forall a, P a -> P (fold_left f l a).
Proof.
  intros Hf. induction l as [|b l IH]; intros a Ha; simpl; auto.
Qed.

Lemma forEachFrom_invariant {A St} (P : St -> Prop) (f : A -> nat -> St -> St) l :
  (forall x i st, P st -> P (f x i st)) ->
  forall index st, P st -> P (Js.forEachFrom f l index st).
Proof.
  intros Hf. induction l as [|x l IH]; intros index st Hst; simpl; auto.
Qed.

Lemma scanTypeScriptFile_counted content filePath m includeContext :
  allCounted m -> allCounted (scanTypeScriptFile content filePath m includeContext).
Proof.
  unfold scanTypeScriptFile, Js.forEach.
  apply forEachFrom_invariant. intros line index st Hst.
  unfold scanTypeScriptLine.
  assert (Himports :
    allCounted
      match exec importStatement line with
      | Some importMatch =>
          fold_left (recordListed filePath (Js.split Js.newline content) index includeContext
                       (fun _ => "Import: " ++ Js.trim line))
                    (listedNames (nth 1 importMatch "")) st
      | None => st
      end).
  { destruct (exec importStatement line); [|assumption].
    apply fold_left_invariant; [|assumption].
    intros. now apply recordListed_counted. }
  destruct (exec importsArray line); [|assumption].
  apply fold_left_invariant; [|assumption].
  intros. now apply recordListed_counted.
Qed.

Lemma scanTemplateLine_counted filePath lines includeContext line index m :
  allCounted m ->
  allCounted (fst (scanTemplateLine RegExpOther filePath lines includeContext line index m)).
Proof.
  unfold allCounted. intros Hm.
  induction Hm as [|[k v] rest Hv Hrest IH]; simpl; [constructor|].
  destruct (selectorRegex RegExpOther (selector v)) as [selectorTest|]; simpl.
  - destruct (scanTemplateLine RegExpOther filePath lines includeContext line index rest)
      as [rest' threw]; simpl in *.
    constructor; [|assumption]. simpl.
    destruct (selectorTest line); [now apply recordUsage_counted | assumption].
  - now constructor.
Qed.

Lemma scanTemplateLines_counted filePath lines includeContext remaining :
  forall index m,
    allCounted m ->
    allCounted (scanTemplateLines RegExpOther filePath lines includeContext remaining index m).
Proof.
  induction remaining as [|line remaining IH]; intros index m Hm; simpl; [assumption|].
  pose proof (scanTemplateLine_counted filePath lines includeContext line index Hm) as Hline.
  destruct (scanTemplateLine RegExpOther filePath lines includeContext line index m)
    as [m' threw]; simpl in Hline.
  destruct threw; [assumption | now apply IH].
Qed.

(** A walk keeps what every call of its handler keeps. *)
Lemma scanDirectory_invariant {St} (P : St -> Prop) (fileHandler : string -> node -> St -> St) :
  (forall filePath item st, P st -> P (fileHandler filePath item st)) ->
  forall n dirPath st, P st -> P (scanDirectory fileHandler dirPath n st).
Proof.
  intros Hhandler.
  induction n as [content | readable items IH | content] using Fs.node_ind;
    intros dirPath st Hst; try assumption.
  destruct readable; [|assumption].
  simpl. revert st Hst.
  induction IH as [|[entryName item] rest IHitem _ IHrest]; intros st Hst; [assumption|].
  apply IHrest.
  destruct (FileOperations.entersDirectory entryName item); [now apply IHitem|].
  destruct (isFile item); auto.
Qed.

Lemma scanDirectoryAt_invariant {St} (P : St -> Prop) (fileHandler : string -> node -> St -> St) :
  (forall filePath item st, P st -> P (fileHandler filePath item st)) ->
  forall fs dirPath st, P st -> P (scanDirectoryAt cwd fileHandler fs dirPath st).
Proof.
  intros Hhandler fs dirPath st Hst. unfold scanDirectoryAt.
  destruct (nodeAt cwd fs dirPath); [now apply scanDirectory_invariant | assumption].
Qed.

Lemma discoverComponents_counted fs projectPath m :
  allCounted m -> allCounted (discoverComponents cwd fs projectPath m).
Proof.
  apply scanDirectoryAt_invariant. intros filePath item st Hst.
  unfold discoverFile.
  destruct (Js.endsWith filePath ".component.ts"); [|assumption].
  destruct (readFile item) as [content|]; [|assumption].
  destruct (extractComponentName content filePath) as [componentName|]; [|assumption].
  destruct (negb (componentName =? "") && negb (extractSelector content =? ""));
    [|assumption].
  apply set_counted; [assumption | reflexivity].
Qed.

Lemma scanForUsages_counted fs projectPath m includeContext :
  allCounted m ->
  allCounted (scanForUsages cwd RegExpOther fs projectPath m includeContext).
Proof.
  apply scanDirectoryAt_invariant. intros filePath item st Hst.
  unfold scanFile.
  destruct (Js.arrayIncludes _ _); [|assumption].
  destruct (readFile item) as [content|]; [|assumption].
  destruct (Path.extname filePath =? ".ts"); [now apply scanTypeScriptFile_counted|].
  destruct (Path.extname filePath =? ".html"); [|assumption].
  now apply scanTemplateLines_counted.
Qed.

(** *** Sorting *)

Lemma insertSorted_In {A} (compareFn : A -> A -> Z) x y sorted :
  In y (Js.insertSorted compareFn x sorted) <-> y = x \/ In y sorted.
Proof.
  induction sorted as [|z sorted IH]; simpl.
  - intuition congruence.
  - destruct (compareFn x z <=? 0)%Z; simpl; [intuition congruence|].
    rewrite IH. intuition congruence.
Qed.

Lemma sort_In {A} (compareFn : A -> A -> Z) y l :
  In y (Js.sort compareFn l) <-> In y l.
Proof.
  induction l as [|x l IH]; simpl; [reflexivity|].
  rewrite insertSorted_In, IH. intuition congruence.
Qed.

(** The components before the filter or the sort. *)
Lemma analyzeComponentUsage_cases fs projectPath targetComponent includeContext :
  let all := values (scanForUsages cwd RegExpOther fs projectPath
                       (discoverComponents cwd fs projectPath []) includeContext) in
  analyzeComponentUsage cwd RegExpOther fs projectPath targetComponent includeContext
  = if negb (targetComponent =? "") then filter (matchesTarget targetComponent) all
    else Js.sort byTotalUsages all.
Proof. reflexivity. Qed.

(** C3: in the array [analyzeComponentUsage] returns, with or without a
    filter, the counter [totalUsages] of every component is the length of
    its list [usedIn]. *)
Theorem totalUsages_is_length_usedIn fs projectPath targetComponent includeContext u :
  In u (analyzeComponentUsage cwd RegExpOther fs projectPath targetComponent includeContext) ->
  totalUsages u = List.length (usedIn u).
Proof.
  rewrite analyzeComponentUsage_cases. cbv zeta. intros Hin.
  assert (Hall : In u (values (scanForUsages cwd RegExpOther fs projectPath
                                 (discoverComponents cwd fs projectPath []) includeContext))).
  { destruct (negb (targetComponent =? "")).
    - now apply filter_In in Hin.
    - now apply sort_In in Hin. }
  unfold values in Hall. apply in_map_iff in Hall. destruct Hall as (entry & <- & Hentry).
  assert (Hcounted : allCounted (scanForUsages cwd RegExpOther fs projectPath
                                   (discoverComponents cwd fs projectPath []) includeContext)).
  { apply scanForUsages_counted, discoverComponents_counted. constructor. }
  unfold allCounted in Hcounted. rewrite Forall_forall in Hcounted.
  now apply Hcounted.
Qed.

(** C6: with a filter that is not empty, every component returned is also
    returned without the filter, unchanged, and its name or its selector
    contains the filter when both are put in lower case. *)
Theorem filtered_subset_and_match fs projectPath targetComponent includeContext u :
  targetComponent <> "" ->
  In u (analyzeComponentUsage cwd RegExpOther fs projectPath targetComponent includeContext) ->
  In u (analyzeComponentUsage cwd RegExpOther fs projectPath "" includeContext)
  /\ (Js.includes (Js.toLowerCase (component u)) (Js.toLowerCase targetComponent) = true
      \/ Js.includes (Js.toLowerCase (selector u)) (Js.toLowerCase targetComponent) = true).
Proof.
  intros Htarget. rewrite !analyzeComponentUsage_cases. cbv zeta.
  apply String.eqb_neq in Htarget. rewrite Htarget. simpl.
  intros Hin. apply filter_In in Hin. destruct Hin as [Hin Hmatch].
  split; [now apply sort_In|].
  unfold matchesTarget in Hmatch. now apply orb_true_iff in Hmatch.
Qed.

(** *** The order of the result without a filter *)

Lemma insertSorted_Sorted x sorted :
  Sorted moreUsed sorted -> Sorted moreUsed (Js.insertSorted byTotalUsages x sorted).
Proof.
  induction 1 as [|y rest Hrest IH Hhd]; simpl; [repeat constructor|].
  destruct (byTotalUsages x y <=? 0)%Z eqn:Hcmp.
  - constructor; [now constructor|]. constructor.
    apply Z.leb_le in Hcmp. unfold byTotalUsages in Hcmp. unfold moreUsed. lia.
  - constructor; [assumption|].
    apply Z.leb_gt in Hcmp. unfold byTotalUsages in Hcmp.
    destruct Hhd as [|z rest' Hyz]; simpl.
    + constructor. unfold moreUsed. lia.
    + destruct (byTotalUsages x z <=? 0)%Z; constructor; [unfold moreUsed; lia | assumption].
Qed.

Lemma sort_Sorted l : Sorted moreUsed (Js.sort byTotalUsages l).
Proof.
  induction l as [|x l IH]; simpl; [constructor | now apply insertSorted_Sorted].
Qed.

(** Without a filter the result is in descending order of [totalUsages]. *)
Lemma analyzeComponentUsage_sorted fs projectPath includeContext :
  Sorted moreUsed (analyzeComponentUsage cwd RegExpOther fs projectPath "" includeContext).
Proof. rewrite analyzeComponentUsage_cases. apply sort_Sorted. Qed.

End UsageFacts.

(** ** The path guard *)

Section PathGuardFacts.

Import FileOperations.

Variable cwd : string.
Variable access : string -> bool.
Variable statIsFile : string -> option bool.

(** What the guard accepts, with containment read as the test the code
    makes: the resolved path starts with the characters of the project
    path. *)
Lemma validateFilePath_accepts_iff filePath fullPath :
  validateFilePath cwd access statIsFile filePath = inl fullPath
  <-> fullPath = Path.resolve cwd [ANGULAR_PROJECT_PATH cwd; filePath]
      /\ Js.startsWith fullPath (Path.resolve cwd [ANGULAR_PROJECT_PATH cwd]) = true
      /\ Js.arrayIncludes ALLOWED_EXTENSIONS (Path.extname fullPath) = true
      /\ isRegularFile access statIsFile fullPath = true.
Proof.
  unfold validateFilePath, isRegularFile.
  set (resolved := Path.resolve cwd [ANGULAR_PROJECT_PATH cwd; filePath]).
  destruct (Js.startsWith resolved _) eqn:Hinside;
    destruct (Js.arrayIncludes ALLOWED_EXTENSIONS (Path.extname resolved)) eqn:Hext;
    destruct (access resolved) eqn:Haccess;
    destruct (statIsFile resolved) as [[|]|] eqn:Hstat;
    cbn [negb andb];
    (split;
     [ intros Heq; try discriminate Heq; injection Heq as <-;
       now rewrite Hinside, Hext, Haccess, Hstat
     | intros (-> & H1 & H2 & H3);
       rewrite ?Hinside, ?Hext, ?Haccess, ?Hstat in *;
       try discriminate; reflexivity ]).
Qed.

(** The order of the guard's own tests: the comparison of characters
    first, the extension second and the target last. The error it reports
    is the one of the first test that fails, whatever the later tests
    would say; it accepts when none fails. The first test is the one the
    code makes, [startsWith]; what it lets through is shown below. *)
Lemma validateFilePath_test_order filePath :
  let fullPath := Path.resolve cwd [ANGULAR_PROJECT_PATH cwd; filePath] in
  let contained := Js.startsWith fullPath (Path.resolve cwd [ANGULAR_PROJECT_PATH cwd]) in
  let ext := Path.extname fullPath in
  let allowed := Js.arrayIncludes ALLOWED_EXTENSIONS ext in
  let regular := isRegularFile access statIsFile fullPath in
  (contained = false ->
   validateFilePath cwd access statIsFile filePath = inr OutOfScope)
  /\ (contained = true -> allowed = false ->
      validateFilePath cwd access statIsFile filePath = inr (DisallowedType ext))
  /\ (contained = true -> allowed = true -> regular = false ->
      validateFilePath cwd access statIsFile filePath = inr NotAccessible)
  /\ (contained = true -> allowed = true -> regular = true ->
      validateFilePath cwd access statIsFile filePath = inl fullPath).
Proof.
  cbv zeta. unfold validateFilePath, isRegularFile.
  set (fullPath := Path.resolve cwd [ANGULAR_PROJECT_PATH cwd; filePath]).
  destruct (Js.startsWith fullPath _);
    destruct (Js.arrayIncludes ALLOWED_EXTENSIONS (Path.extname fullPath));
    destruct (access fullPath);
    destruct (statIsFile fullPath) as [[|]|];
    cbn [negb andb]; repeat split; intros; try discriminate; reflexivity.
Qed.

End PathGuardFacts.

Lemma validateFilePath_test_order_instance :
  FileOperations.validateFilePath Scenario.cwd (fun _ => false) (fun _ => None)
    "../../etc/passwd" = inr FileOperations.OutOfScope
  /\ FileOperations.validateFilePath Scenario.cwd (fun _ => false) (fun _ => None)
       "missing.exe" = inr (FileOperations.DisallowedType ".exe").
Proof.
  split.
  - apply (validateFilePath_test_order
             Scenario.cwd (fun _ => false) (fun _ => None) "../../etc/passwd").
    reflexivity.
  - apply (validateFilePath_test_order
             Scenario.cwd (fun _ => false) (fun _ => None) "missing.exe");
      reflexivity.
Defined.

(** C1: the guard accepts a readable [.ts] file of a directory that lies
    next to the project when the name of that directory starts with the
    name of the project, although the resolved path is not inside the
    project. *)
Theorem validateFilePath_accepts_sibling :
  let access := fun p => match Fs.nodeAt Scenario.cwd Scenario.siblingDisk p with
                         | Some _ => true
                         | None => false
                         end in
  let statIsFile := fun p => option_map Fs.isFile (Fs.nodeAt Scenario.cwd Scenario.siblingDisk p) in
  FileOperations.validateFilePath Scenario.cwd access statIsFile
    "../learning-notebook-evil/notes.ts"
  = inl "/home/dev/learning-notebook-evil/notes.ts"
  /\ FileOperations.insideProject Scenario.cwd "/home/dev/learning-notebook-evil/notes.ts"
     = false.
Proof. split; reflexivity. Qed.

(** C9: a path that both leaves the project directory and has an extension
    that is not allowed is not reported as out of scope when it leads into
    a directory next to the project whose name starts with the name of the
    project: whatever the file system holds, the guard reports the
    extension. The first test of the guard compares characters (the test
    of C1) and lets the path through to the second. *)
Theorem validateFilePath_sibling_reports_extension
        (access : string -> bool) (statIsFile : string -> option bool) :
  Path.resolve Scenario.cwd
    [FileOperations.ANGULAR_PROJECT_PATH Scenario.cwd; "../learning-notebook-evil/notes.exe"]
  = "/home/dev/learning-notebook-evil/notes.exe"
  /\ FileOperations.insideProject Scenario.cwd "/home/dev/learning-notebook-evil/notes.exe"
     = false
  /\ Js.arrayIncludes FileOperations.ALLOWED_EXTENSIONS ".exe" = false
  /\ FileOperations.validateFilePath Scenario.cwd access statIsFile
       "../learning-notebook-evil/notes.exe"
     = inr (FileOperations.DisallowedType ".exe").
Proof. repeat split; reflexivity. Qed.

(** ** Directories the walks refuse *)

Section SkipFacts.

Import Fs FileOperations.

Lemma entersDirectory_skipped name item :
  entersDirectory name item = isDirectory item && negb (skippedName name).
Proof.
  unfold entersDirectory, skippedName.
  now rewrite !negb_orb, !andb_assoc.
Qed.

Lemma prune_isDirectory n : isDirectory (prune n) = isDirectory n.
Proof. now destruct n. Qed.

Lemma prune_leaf n : isDirectory n = false -> prune n = n.
Proof. now destruct n. Qed.

(** The files a search or a count reads are those of the pruned tree:
    what lies under [node_modules], [dist] or a hidden directory adds
    nothing to either. *)
Lemma searchableFiles_prune allowedTypes n :
  forall dir,
    searchableFiles allowedTypes dir (prune n) = searchableFiles allowedTypes dir n.
Proof.
  induction n as [content | readable items IH | content] using Fs.node_ind;
    intros dir; try reflexivity.
  destruct readable; [|reflexivity].
  simpl.
  induction IH as [|[name item] rest IHitem _ IHrest]; [reflexivity|].
  simpl. rewrite (entersDirectory_skipped name item).
  destruct (isDirectory item) eqn:Hdir; simpl.
  - destruct (skippedName name) eqn:Hskip; simpl.
    + assert (Hfile : isFile item = false) by now destruct item.
      rewrite Hfile. simpl. exact IHrest.
    + rewrite entersDirectory_skipped, prune_isDirectory, Hdir, Hskip. simpl.
      now rewrite IHitem, IHrest.
  - rewrite entersDirectory_skipped, prune_isDirectory, Hdir. simpl.
    rewrite (prune_leaf _ Hdir). now rewrite IHrest.
Qed.

Lemma performSearch_skips cwd query allowedTypes dir n :
  searchFiles cwd query allowedTypes dir (prune n) []
  = searchFiles cwd query allowedTypes dir n [].
Proof. now rewrite !searchFiles_hits, searchableFiles_prune. Qed.

Lemma countSearchableFiles_skips allowedTypes dir n :
  countFiles allowedTypes dir (prune n) 0 = countFiles allowedTypes dir n 0.
Proof. now rewrite !countFiles_length, searchableFiles_prune. Qed.

(** The walk of the usage graph, for discovery and for usages alike. *)
Lemma scanDirectory_skips {St} (fileHandler : string -> node -> St -> St) n :
  forall dirPath st,
    ComponentUsageTool.scanDirectory fileHandler dirPath (prune n) st
    = ComponentUsageTool.scanDirectory fileHandler dirPath n st.
Proof.
  induction n as [content | readable items IH | content] using Fs.node_ind;
    intros dirPath st; try reflexivity.
  destruct readable; [|reflexivity].
  simpl. revert st.
  induction IH as [|[name item] rest IHitem _ IHrest]; intros st; [reflexivity|].
  simpl. rewrite (entersDirectory_skipped name item).
  destruct (isDirectory item) eqn:Hdir; simpl.
  - destruct (skippedName name) eqn:Hskip; simpl.
    + assert (Hfile : isFile item = false) by now destruct item.
      rewrite Hfile. apply IHrest.
    + rewrite entersDirectory_skipped, prune_isDirectory, Hdir, Hskip. simpl.
      now rewrite IHitem, IHrest.
  - rewrite entersDirectory_skipped, prune_isDirectory, Hdir. simpl.
    rewrite (prune_leaf _ Hdir). now rewrite IHrest.
Qed.

End SkipFacts.

(** C5: two walks do not refuse what the others refuse. [findServiceFiles]
    enters [node_modules] and returns the service file found there, while
    a search and a count from the same directory leave it out; and
    [findComponentFiles] enters [dist]. *)
Theorem findServiceFiles_enters_node_modules :
  let services := Path.join Scenario.projectPath "src/app/core/services" in
  let app := Path.join Scenario.projectPath "src/app" in
  map AnalysisHelper.path
      (AnalysisHelper.findServiceFiles Scenario.cwd Scenario.servicesWithDependencies services)
  = [ "src/app/core/services/node_modules/vendor.service.ts";
      "src/app/core/services/theme.service.ts" ]
  /\ map FileOperations.file
         (FileOperations.performSearch Scenario.cwd Scenario.servicesWithDependencies
            services "export class" FileOperations.ALLOWED_EXTENSIONS)
     = [ "src/app/core/services/theme.service.ts" ]
  /\ FileOperations.countSearchableFiles Scenario.cwd Scenario.servicesWithDependencies
       services FileOperations.ALLOWED_EXTENSIONS = 1
  /\ map AnalysisHelper.ComponentInfo.path
         (AnalysisHelper.findComponentFiles Scenario.cwd Scenario.componentsWithBuild app)
     = [ "src/app/dist/old.component.ts"; "src/app/app.component.ts" ].
Proof. repeat split; vm_compute; reflexivity. Qed.

(** C10: a search called with the file types [['.exe']] reads a file with
    that extension and returns its line as a hit, while the path guard
    rejects the same file with [DisallowedType], whatever the file system
    holds. *)
Theorem search_reads_disallowed_extension :
  exists fs query fileTypes report hit,
    SearchCodebase.handler Scenario.cwd fs query (Some fileTypes) None = inl report
    /\ In hit (SearchCodebase.results report)
    /\ Js.arrayIncludes FileOperations.ALLOWED_EXTENSIONS
         (Path.extname (FileOperations.file hit)) = false
    /\ forall access statIsFile,
         FileOperations.validateFilePath Scenario.cwd access statIsFile
           (FileOperations.file hit)
         = inr (FileOperations.DisallowedType (Path.extname (FileOperations.file hit))).
Proof.
  exists Scenario.withExecutable, "signal", [".exe"].
  eexists. eexists. split; [vm_compute; reflexivity|].
  split; [left; reflexivity|].
  split; [reflexivity|].
  intros access statIsFile. reflexivity.
Qed.

(** C4: with a filter the components come back in the order of their
    discovery, not sorted: here the unused one stands before the one used
    once. Without a filter the same components are in descending order. *)
Theorem filtered_result_not_sorted :
  forall RegExpOther,
    let filtered := ComponentUsageTool.analyzeComponentUsage Scenario.cwd RegExpOther
                      Scenario.twoComponents Scenario.projectPath "component" true in
    let unfiltered := ComponentUsageTool.analyzeComponentUsage Scenario.cwd RegExpOther
                        Scenario.twoComponents Scenario.projectPath "" true in
    map (fun u => (ComponentUsageTool.component u, ComponentUsageTool.totalUsages u)) filtered
    = [("AComponent", 0); ("BComponent", 1)]
    /\ ~ Sorted ComponentUsageTool.moreUsed filtered
    /\ map (fun u => (ComponentUsageTool.component u, ComponentUsageTool.totalUsages u))
           unfiltered
       = [("BComponent", 1); ("AComponent", 0)].
Proof.
  intros RegExpOther. cbv zeta. split; [vm_compute; reflexivity|].
  split; [|vm_compute; reflexivity].
  intros Hsorted. vm_compute in Hsorted.
  inversion Hsorted as [|a l _ Hhd]; subst.
  inversion Hhd as [|b l' Hle]; subst.
  unfold ComponentUsageTool.moreUsed in Hle. simpl in Hle. lia.
Qed.

Lemma totalUsages_is_length_usedIn_witness :
  In Scenario.usedComponent
     (ComponentUsageTool.analyzeComponentUsage Scenario.cwd Scenario.noRegExp
        Scenario.twoComponents Scenario.projectPath "" false)
  /\ ComponentUsageTool.totalUsages Scenario.usedComponent
     = List.length (ComponentUsageTool.usedIn Scenario.usedComponent).
Proof.
  split; [vm_compute; auto|].
  apply (totalUsages_is_length_usedIn Scenario.cwd Scenario.noRegExp
           Scenario.twoComponents Scenario.projectPath "" false).
  vm_compute. auto.
Defined.

Lemma filtered_subset_and_match_witness :
  In Scenario.usedComponent
     (ComponentUsageTool.analyzeComponentUsage Scenario.cwd Scenario.noRegExp
        Scenario.twoComponents Scenario.projectPath "APP-B" false)
  /\ In Scenario.usedComponent
       (ComponentUsageTool.analyzeComponentUsage Scenario.cwd Scenario.noRegExp
          Scenario.twoComponents Scenario.projectPath "" false)
  /\ (Js.includes (Js.toLowerCase (ComponentUsageTool.component Scenario.usedComponent))
                  (Js.toLowerCase "APP-B") = true
      \/ Js.includes (Js.toLowerCase (ComponentUsageTool.selector Scenario.usedComponent))
                     (Js.toLowerCase "APP-B") = true).
Proof.
  split; [vm_compute; auto|].
  apply (filtered_subset_and_match Scenario.cwd Scenario.noRegExp
           Scenario.twoComponents Scenario.projectPath (targetComponent:="APP-B") false).
  - discriminate.
  - vm_compute. auto.
Defined.

Lemma search_signal_one_hit_witness :
  FileOperations.searchFile Scenario.cwd "/home/dev/learning-notebook/src/counter.ts" "SIGNAL"
    (Fs.File (Some (Js.join Js.nl [ "// counter"; "export class Counter {"; "  value = 1;";
                                    "  const x = signal(0);"; "}" ]))) []
  = [ {| FileOperations.file := "src/counter.ts";
         FileOperations.line := 4;
         FileOperations.context := "const x = signal(0);";
         FileOperations.excerpt :=
           Js.join Js.nl [ "export class Counter {"; "  value = 1;";
                           "  const x = signal(0);"; "}" ] |} ].
Proof.
  apply (search_signal_one_hit Scenario.cwd "/home/dev/learning-notebook/src/counter.ts"
           [ "// counter"; "export class Counter {"; "  value = 1;" ] [ "}" ]
           "  " "" (query:="SIGNAL") []).
  - simpl. auto.
  - repeat constructor.
  - reflexivity.
Defined.

(* ================================================================= *)
(** * Further properties of the search *)

Section SearchMore.

Import Fs FileOperations.

Variable cwd : string.

Lemma searchLine_hitFor fullPath query lines text index :
  searchLine cwd fullPath query lines text index []
  = if Js.includes (Js.toLowerCase text) (Js.toLowerCase query)
    then [hitFor cwd fullPath lines index text] else [].
Proof. reflexivity. Qed.

Lemma In_mapiFrom_nth {A B} (f : A -> nat -> B) l :
  forall index y,
    In y (Js.mapiFrom f l index)
    <-> exists j x, nth_error l j = Some x /\ y = f x (index + j).
Proof.
  induction l as [|a l IH]; intros index y; simpl.
  - split; [easy|]. intros (j & x & Hnth & _). now destruct j.
  - rewrite IH. split.
    + intros [<-|(j & x & Hnth & ->)].
      * exists 0, a. now rewrite Nat.add_0_r.
      * exists (S j), x. split; [assumption|]. f_equal. lia.
    + intros (j & x & Hnth & ->). destruct j as [|j]; simpl in Hnth.
      * left. injection Hnth as ->. now rewrite Nat.add_0_r.
      * right. exists j, x. split; [assumption|]. f_equal. lia.
Qed.

(** The hits of a file are the hits of its matching lines, no more. *)
Lemma fileHits_iff fullPath query item r :
  In r (fileHits cwd fullPath query item)
  <-> exists content index text,
        readFile item = Some content
        /\ nth_error (Js.split Js.newline content) index = Some text
        /\ Js.includes (Js.toLowerCase text) (Js.toLowerCase query) = true
        /\ r = hitFor cwd fullPath (Js.split Js.newline content) index text.
Proof.
  unfold fileHits. destruct (readFile item) as [content|].
  - rewrite in_concat. split.
    + intros (hits & Hhits & Hr). apply In_mapiFrom_nth in Hhits.
      destruct Hhits as (j & text & Hnth & ->). rewrite searchLine_hitFor in Hr.
      destruct (Js.includes _ _) eqn:Hmatch; [|easy].
      destruct Hr as [<-|[]]. now exists content, j, text.
    + intros (content' & index & text & [= <-] & Hnth & Hmatch & ->).
      exists [hitFor cwd fullPath (Js.split Js.newline content) index text].
      split; [|now left].
      apply In_mapiFrom_nth. exists index, text. split; [assumption|].
      now rewrite searchLine_hitFor, Hmatch.
  - split; [easy|]. now intros (content & index & text & [=] & _).
Qed.

(** X1: every hit a search returns is genuine: it names a file the walk
    reads, its line number is that of a line of the file which contains the
    query when both are put in lower case, its context is that line
    trimmed and its excerpt the window around that line. *)
Theorem performSearch_sound fs searchDir query allowedTypes r :
  In r (performSearch cwd fs searchDir query allowedTypes) ->
  exists fullPath item content index text,
    In (fullPath, item) (searchableFilesAt cwd fs searchDir allowedTypes)
    /\ readFile item = Some content
    /\ nth_error (Js.split Js.newline content) index = Some text
    /\ Js.includes (Js.toLowerCase text) (Js.toLowerCase query) = true
    /\ r = hitFor cwd fullPath (Js.split Js.newline content) index text.
Proof.
  rewrite performSearch_hits. intros Hin. apply In_firstn in Hin.
  unfold hitsInTraversalOrder in Hin. apply in_flat_map in Hin.
  destruct Hin as ([fullPath item] & Hvisited & Hr). simpl in Hr.
  apply fileHits_iff in Hr. destruct Hr as (content & index & text & H).
  now exists fullPath, item, content, index, text.
Qed.

(** X2: when the corpus has at most 50 hits none is lost: every line of a
    readable file of the walk that contains the query, in any case, has its
    hit in the result. *)
Theorem performSearch_complete fs searchDir query allowedTypes
        fullPath item content index text :
  List.length (hitsInTraversalOrder cwd fs searchDir query allowedTypes) <= 50 ->
  In (fullPath, item) (searchableFilesAt cwd fs searchDir allowedTypes) ->
  readFile item = Some content ->
  nth_error (Js.split Js.newline content) index = Some text ->
  Js.includes (Js.toLowerCase text) (Js.toLowerCase query) = true ->
  In (hitFor cwd fullPath (Js.split Js.newline content) index text)
     (performSearch cwd fs searchDir query allowedTypes).
Proof.
  intros Hcap Hvisited Hread Hnth Hmatch.
  rewrite performSearch_hits, firstn_all2 by assumption.
  unfold hitsInTraversalOrder. apply in_flat_map.
  exists (fullPath, item). split; [assumption|]. simpl.
  apply fileHits_iff. now exists content, index, text.
Qed.

Lemma mapiFrom_ext {A B} (f g : A -> nat -> B) l :
  (forall x i, f x i = g x i) ->
  forall index, Js.mapiFrom f l index = Js.mapiFrom g l index.
Proof.
  intros Hfg. induction l as [|x l IH]; intros index; simpl; [reflexivity|].
  now rewrite Hfg, IH.
Qed.

(** X3: a search looks at the query in lower case only: two queries that
    differ in the case of their letters give the same result. *)
Theorem performSearch_query_case fs searchDir query1 query2 allowedTypes :
  Js.toLowerCase query1 = Js.toLowerCase query2 ->
  performSearch cwd fs searchDir query1 allowedTypes
  = performSearch cwd fs searchDir query2 allowedTypes.
Proof.
  intros Hcase. rewrite !performSearch_hits. f_equal.
  unfold hitsInTraversalOrder. apply flat_map_ext. intros [fullPath item]. simpl.
  unfold fileHits. destruct (readFile item) as [content|]; [|reflexivity].
  f_equal. apply mapiFrom_ext. intros text index.
  unfold searchLine. now rewrite Hcase.
Qed.

Lemma includes_empty s : Js.includes s "" = true.
Proof. destruct s; reflexivity. Qed.

Lemma empty_query_lines fullPath lines l :
  forall index,
    map line (List.concat (Js.mapiFrom
                (fun text i => searchLine cwd fullPath "" lines text i []) l index))
    = seq (index + 1) (List.length l).
Proof.
  induction l as [|text l IH]; intros index; [reflexivity|].
  cbn [Js.mapiFrom List.concat List.length seq].
  rewrite searchLine_hitFor. cbn [Js.toLowerCase]. rewrite includes_empty.
  cbn [app map hitFor line]. rewrite IH. f_equal.
Qed.

(** X4: the empty query matches every line: a readable file gives one hit
    for each of its lines, numbered from 1 in order. *)
Theorem empty_query_hits_every_line fullPath content :
  map line (fileHits cwd fullPath "" (File (Some content)))
  = seq 1 (List.length (Js.split Js.newline content)).
Proof. unfold fileHits. cbn [readFile]. apply empty_query_lines. Qed.

Lemma searchableFiles_no_types n :
  forall dir, searchableFiles [] dir n = [].
Proof.
  induction n as [content | readable items IH | content] using Fs.node_ind;
    intros dir; try reflexivity.
  destruct readable; [|reflexivity]. simpl.
  induction IH as [|[name item] rest IHitem _ IHrest]; [reflexivity|].
  simpl. rewrite IHrest, app_nil_r.
  destruct (entersDirectory name item); [apply IHitem|].
  now rewrite andb_false_r.
Qed.

(** X5: an empty list of file types is not replaced by the default list
    and matches no file: the search finds nothing, the count is 0, and the
    search tool, unless it refuses the directory, reports no result in no
    file. *)
Theorem empty_file_types_find_nothing fs searchDir query directory :
  performSearch cwd fs searchDir query [] = []
  /\ countSearchableFiles cwd fs searchDir [] = 0
  /\ (SearchCodebase.handler cwd fs query (Some []) directory
      = inr "Search directory is outside project directory"
      \/ SearchCodebase.handler cwd fs query (Some []) directory
         = inl {| SearchCodebase.results := [];
                  SearchCodebase.totalFiles := 0;
                  SearchCodebase.matchedFiles := 0 |}).
Proof.
  assert (Hnone : forall dir, searchableFilesAt cwd fs dir [] = []).
  { intros dir. unfold searchableFilesAt.
    destruct (nodeAt cwd fs dir); [apply searchableFiles_no_types | reflexivity]. }
  assert (Hsearch : forall dir, performSearch cwd fs dir query [] = []).
  { intros dir. rewrite performSearch_hits. unfold hitsInTraversalOrder.
    now rewrite Hnone. }
  assert (Hcount : forall dir, countSearchableFiles cwd fs dir [] = 0).
  { intros dir. now rewrite countSearchableFiles_length, Hnone. }
  split; [apply Hsearch|]. split; [apply Hcount|].
  unfold SearchCodebase.handler.
  destruct (negb (Js.startsWith _ _)); [now left|].
  right. now rewrite Hsearch, Hcount.
Qed.

Lemma distinct_length xs : List.length (distinct xs) <= List.length xs.
Proof.
  induction xs as [|x xs IH]; simpl; [lia|].
  pose proof (filter_length_le (fun y => negb (y =? x)) (distinct xs)). lia.
Qed.

(** X6: in every report of the search tool there are at most 50 results,
    the files with matches are at most as many as the results, and at most
    as many as the files searched. *)
Theorem handler_report_bounds fs query fileTypes directory report :
  SearchCodebase.handler cwd fs query fileTypes directory = inl report ->
  List.length (SearchCodebase.results report) <= 50
  /\ SearchCodebase.matchedFiles report <= List.length (SearchCodebase.results report)
  /\ SearchCodebase.matchedFiles report <= SearchCodebase.totalFiles report.
Proof.
  unfold SearchCodebase.handler.
  destruct (negb (Js.startsWith _ _)); [discriminate|].
  intros [= <-]. cbn [SearchCodebase.results SearchCodebase.matchedFiles
                      SearchCodebase.totalFiles].
  split; [|split].
  - rewrite performSearch_hits. apply firstn_le_length.
  - etransitivity; [apply distinct_length|]. now rewrite length_map.
  - apply matched_files_le_counted.
Qed.

(** X7: only directories are refused by name: a readable file with a
    listed extension that lies in the directory walked is counted and
    searched whatever its name, hidden files included: each of its lines
    that contains the query is pushed as a hit. *)
Theorem files_are_searched_whatever_their_name
        query allowedTypes dir items name content index text :
  In (name, File (Some content)) items ->
  Js.arrayIncludes allowedTypes (Path.extname name) = true ->
  nth_error (Js.split Js.newline content) index = Some text ->
  Js.includes (Js.toLowerCase text) (Js.toLowerCase query) = true ->
  In (hitFor cwd (Path.join dir name) (Js.split Js.newline content) index text)
     (searchFiles cwd query allowedTypes dir (Dir true items) [])
  /\ 1 <= countFiles allowedTypes dir (Dir true items) 0.
Proof.
  intros Hin Hext Hnth Hmatch.
  assert (Hvisited : In (Path.join dir name, File (Some content))
                        (searchableFiles allowedTypes dir (Dir true items))).
  { simpl. apply in_flat_map. exists (name, File (Some content)).
    split; [assumption|]. cbn [fst snd].
    assert (Hdir : entersDirectory name (File (Some content)) = false) by reflexivity.
    rewrite Hdir, Hext. now left. }
  split.
  - rewrite searchFiles_hits. cbn [app]. apply in_flat_map.
    exists (Path.join dir name, File (Some content)). split; [assumption|].
    apply fileHits_iff. now exists content, index, text.
  - rewrite countFiles_length.
    destruct (searchableFiles allowedTypes dir (Dir true items)); [easy | simpl; lia].
Qed.

(** X8: what lies under a hidden directory, [node_modules] or [dist], at
    any depth below the start directory, changes neither the result of a
    search nor the count of searchable files. *)
Theorem search_ignores_refused_directories fs fs' searchDir query allowedTypes n :
  nodeAt cwd fs searchDir = Some n ->
  nodeAt cwd fs' searchDir = Some (prune n) ->
  performSearch cwd fs' searchDir query allowedTypes
  = performSearch cwd fs searchDir query allowedTypes
  /\ countSearchableFiles cwd fs' searchDir allowedTypes
     = countSearchableFiles cwd fs searchDir allowedTypes.
Proof.
  intros Hn Hpruned.
  rewrite !performSearch_hits, !countSearchableFiles_length.
  unfold hitsInTraversalOrder, searchableFilesAt.
  now rewrite Hn, Hpruned, searchableFiles_prune.
Qed.

End SearchMore.

(** ** Suggestions of related searches *)

Lemma append_same_prefix (a b c : string) : a ++ b = a ++ c -> b = c.
Proof.
  induction a as [|x a IH]; simpl; [easy|].
  intros [= H]. now apply IH.
Qed.

Lemma endsWith_unfold s p :
  Js.endsWith s p
  = (s =? p) || match s with
                | EmptyString => false
                | String _ s' => Js.endsWith s' p
                end.
Proof. destruct s; reflexivity. Qed.

Lemma endsWith_app a b : Js.endsWith (a ++ b) b = true.
Proof.
  induction a as [|x a IH].
  - rewrite endsWith_unfold. cbn [append]. now rewrite String.eqb_refl.
  - rewrite endsWith_unfold. cbn [append]. rewrite IH. apply orb_true_r.
Qed.

(** X9: the suggestions are five when the query holds one of the words
    component, service, signal or interface in any case, and then the
    suggestion [query interface] is cut off; they are the three suggestions
    built from the query otherwise. The suggestions [query component] and
    [query service] are always there, and the results play no part. *)
Theorem generateRelatedSearches_shape query results :
  let suggestions := FileOperations.generateRelatedSearches query results in
  (FileOperations.hasKnownWord query = true ->
   List.length suggestions = 5 /\ ~ In (query ++ " interface") suggestions)
  /\ (FileOperations.hasKnownWord query = false ->
      suggestions = [query ++ " component"; query ++ " service"; query ++ " interface"])
  /\ In (query ++ " component") suggestions
  /\ In (query ++ " service") suggestions
  /\ suggestions = FileOperations.generateRelatedSearches query [].
Proof.
  cbv zeta.
  assert (Hword : forall w, Js.endsWith w " interface" = false -> w <> query ++ " interface").
  { intros w Hw ->. now rewrite endsWith_app in Hw. }
  assert (Hother : forall w, w <> " interface" -> query ++ w <> query ++ " interface").
  { intros w Hw Heq. now apply append_same_prefix in Heq. }
  assert (Hfive : forall k1 k2 k3,
             Js.endsWith k1 " interface" = false ->
             Js.endsWith k2 " interface" = false ->
             Js.endsWith k3 " interface" = false ->
             ~ In (query ++ " interface")
                  [k1; k2; k3; query ++ " component"; query ++ " service"]).
  { intros k1 k2 k3 H1 H2 H3 [Hin|[Hin|[Hin|[Hin|[Hin|[]]]]]].
    - now apply (Hword k1).
    - now apply (Hword k2).
    - now apply (Hword k3).
    - now apply (Hother " component").
    - now apply (Hother " service"). }
  unfold FileOperations.generateRelatedSearches, FileOperations.hasKnownWord.
  destruct (Js.includes (Js.toLowerCase query) "component");
    [|destruct (Js.includes (Js.toLowerCase query) "service");
      [|destruct (Js.includes (Js.toLowerCase query) "signal");
        [|destruct (Js.includes (Js.toLowerCase query) "interface")]]];
    cbn [orb app Js.slice Nat.sub skipn firstn List.length];
    repeat match goal with
           | |- _ /\ _ => split
           | |- true = true -> _ => intros _
           | |- false = true -> _ => discriminate
           | |- true = false -> _ => discriminate
           | |- false = false -> _ => intros _
           | |- ~ In _ _ => now apply Hfive
           | |- In _ _ => simpl; auto 10
           | |- _ = _ => reflexivity
           end.
Qed.

(** ** The path guard and the file system *)

(** X10: the guard decides that a path is out of scope or of a type that
    is not allowed without looking at the file system: the same rejection
    comes whatever the file system holds. *)
Theorem validateFilePath_rejects_before_fs cwd access1 stat1 access2 stat2 filePath e :
  FileOperations.validateFilePath cwd access1 stat1 filePath = inr e ->
  e <> FileOperations.NotAccessible ->
  FileOperations.validateFilePath cwd access2 stat2 filePath = inr e.
Proof.
  unfold FileOperations.validateFilePath.
  destruct (negb (Js.startsWith _ _)); [easy|].
  destruct (negb (Js.arrayIncludes _ _)); [easy|].
  intros Hreject Hkind.
  destruct (negb (access1 _)); [now injection Hreject as <-|].
  destruct (stat1 _) as [[|]|]; [discriminate | |]; now injection Hreject as <-.
Qed.

(* ================================================================= *)
(** * The pattern search *)

Section RegExpFacts.

Import RegExp.

Lemma dropPrefix_Some l : forall s rest, Js.dropPrefix l s = Some rest <-> s = l ++ rest.
Proof.
  induction l as [|a l IH]; intros s rest; simpl.
  - split; [now intros [= ->] | now intros ->].
  - destruct s as [|b s]; [easy|].
    destruct (Ascii.eqb_spec a b) as [->|Hne].
    + rewrite IH. split; [now intros -> | now intros [= ->]].
    + split; [easy | intros [= H _]; now destruct Hne].
Qed.

Lemma length_append a b : String.length (a ++ b) = String.length a + String.length b.
Proof. induction a as [|x a IH]; simpl; [reflexivity | now rewrite IH]. Qed.

Lemma substring_prefix w : forall rest, String.substring 0 (String.length w) (w ++ rest) = w.
Proof.
  induction w as [|x w IH]; intros rest; simpl.
  - now destruct rest.
  - now rewrite IH.
Qed.

Lemma consumed_app w rest : consumed (w ++ rest) rest = w.
Proof.
  unfold consumed. rewrite length_append.
  replace (String.length w + String.length rest - String.length rest)
    with (String.length w) by lia.
  apply substring_prefix.
Qed.

Lemma star_sound {R} p (k : string -> option R) r :
  forall s, star p s k = Some r ->
            exists w rest, s = w ++ rest /\ Js.allChars p w = true /\ k rest = Some r.
Proof.
  induction s as [|c s IH]; simpl; intros H.
  - now exists "", "".
  - destruct (p c) eqn:Hc; [|now exists "", (String c s)].
    destruct (star p s k) as [r0|] eqn:Hstar; [|now exists "", (String c s)].
    injection H as ->. destruct (IH eq_refl) as (w & rest & -> & Hw & Hk).
    exists (String c w), rest. simpl. now rewrite Hc, Hw.
Qed.

Lemma star_keeps {R} p (k : string -> option R) r s :
  k s = Some r -> exists r', star p s k = Some r'.
Proof.
  intros Hk. destruct s as [|c s]; simpl; [now exists r|].
  destruct (p c); [|now exists r].
  destruct (star p s k) as [r0|]; [now exists r0 | now exists r].
Qed.

Lemma star_complete {R} p (k : string -> option R) r rest :
  k rest = Some r ->
  forall w, Js.allChars p w = true -> exists r', star p (w ++ rest) k = Some r'.
Proof.
  intros Hk. induction w as [|c w IH]; simpl; intros Hw.
  - now apply star_keeps with r.
  - apply andb_true_iff in Hw. destruct Hw as [Hc Hw]. rewrite Hc.
    destruct (IH Hw) as (r' & ->). now exists r'.
Qed.

Lemma matchAtom_sound {R} a s (k : string -> option R) r :
  matchAtom a s k = Some r ->
  exists w rest, s = w ++ rest /\ atomReads a w /\ k rest = Some r.
Proof.
  destruct a as [l | p | p | p]; simpl.
  - destruct (Js.dropPrefix l s) as [rest|] eqn:Hdrop; [|easy].
    apply dropPrefix_Some in Hdrop. intros Hk. now exists l, rest.
  - destruct s as [|c s]; [easy|]. destruct (p c) eqn:Hc; [|easy].
    intros Hk. exists (String c ""), s. repeat split; [|assumption]. now exists c.
  - apply star_sound.
  - destruct s as [|c s]; [easy|]. destruct (p c) eqn:Hc; [|easy].
    intros H. apply star_sound in H. destruct H as (w & rest & -> & Hw & Hk).
    exists (String c w), rest. simpl. rewrite Hc, Hw. now repeat split.
Qed.

Lemma matchAtom_complete {R} a w rest (k : string -> option R) r :
  atomReads a w -> k rest = Some r -> exists r', matchAtom a (w ++ rest) k = Some r'.
Proof.
  destruct a as [l | p | p | p]; simpl.
  - intros -> Hk.
    assert (Hdrop : Js.dropPrefix l (l ++ rest) = Some rest) by now apply dropPrefix_Some.
    rewrite Hdrop. now exists r.
  - intros (c & -> & Hc) Hk. simpl. rewrite Hc. now exists r.
  - intros Hw Hk. now apply star_complete with r.
  - intros [Hne Hw] Hk. destruct w as [|c w]; [easy|]. simpl in *.
    apply andb_true_iff in Hw. destruct Hw as [Hc Hw]. rewrite Hc.
    now apply star_complete with r.
Qed.

Lemma matchAtoms_sound {R} atoms :
  forall s (k : string -> option R) r,
    matchAtoms atoms s k = Some r ->
    exists w rest, s = w ++ rest /\ atomsRead atoms w /\ k rest = Some r.
Proof.
  induction atoms as [|a atoms IH]; intros s k r; simpl.
  - intros Hk. now exists "", s.
  - intros H. apply matchAtom_sound in H. destruct H as (w1 & rest1 & -> & Ha & H).
    apply IH in H. destruct H as (w2 & rest & -> & Hatoms & Hk).
    exists (w1 ++ w2), rest. rewrite append_assoc. repeat split; [|assumption].
    now exists w1, w2.
Qed.

Lemma matchAtoms_complete {R} atoms :
  forall w rest (k : string -> option R) r,
    atomsRead atoms w -> k rest = Some r ->
    exists r', matchAtoms atoms (w ++ rest) k = Some r'.
Proof.
  induction atoms as [|a atoms IH]; intros w rest k r; simpl.
  - intros -> Hk. now exists r.
  - intros (w1 & w2 & -> & Ha & Hatoms) Hk. rewrite append_assoc.
    destruct (IH _ _ _ _ Hatoms Hk) as (r' & Hr').
    now apply matchAtom_complete with r'.
Qed.

Lemma matchItems_sound r :
  forall s captures captures' rest,
    matchItems r s captures = Some (captures', rest) ->
    exists w new,
      s = w ++ rest /\ captures' = (captures ++ new)%list /\ itemsRead r w new.
Proof.
  induction r as [|[a | atoms] r IH]; intros s captures captures' rest; simpl.
  - intros [= <- <-]. exists "", []. now rewrite app_nil_r.
  - intros H. apply matchAtom_sound in H. destruct H as (w1 & rest1 & -> & Ha & H).
    apply IH in H. destruct H as (w2 & new & -> & -> & Hr).
    exists (w1 ++ w2), new. rewrite append_assoc. repeat split. now exists w1, w2.
  - intros H. apply matchAtoms_sound in H. destruct H as (w1 & rest1 & -> & Ha & H).
    rewrite consumed_app in H.
    apply IH in H. destruct H as (w2 & new & -> & -> & Hr).
    exists (w1 ++ w2), (w1 :: new). rewrite append_assoc, <- app_assoc.
    repeat split. now exists w1, w2, new.
Qed.

Lemma matchItems_complete r :
  forall w new rest captures,
    itemsRead r w new ->
    exists found, matchItems r (w ++ rest) captures = Some found.
Proof.
  induction r as [|[a | atoms] r IH]; intros w new rest captures; simpl.
  - intros [-> _]. now eexists.
  - intros (w1 & w2 & -> & Ha & Hr). rewrite append_assoc.
    destruct (IH _ _ rest captures Hr) as (found & Hfound).
    now apply matchAtom_complete with found.
  - intros (w1 & w2 & new' & -> & Ha & _ & Hr). rewrite append_assoc.
    destruct (IH _ _ rest (captures ++ [consumed (w1 ++ w2 ++ rest) (w2 ++ rest)])%list Hr)
      as (found & Hfound).
    now apply matchAtoms_complete with found.
Qed.

Lemma matchHere_sound r s m :
  matchHere r s = Some m ->
  exists w after captures, s = w ++ after /\ m = w :: captures /\ itemsRead r w captures.
Proof.
  unfold matchHere.
  destruct (matchItems r s []) as [[captures rest]|] eqn:Hhere; [|easy].
  intros [= <-]. apply matchItems_sound in Hhere.
  destruct Hhere as (w & new & -> & -> & Hr).
  exists w, rest, new. now rewrite consumed_app.
Qed.

(** What [exec] returns is a word the pattern reads somewhere in the
    string, with the words its groups read. *)
Lemma exec_sound r :
  forall s m,
    exec r s = Some m ->
    exists before w after captures,
      s = before ++ w ++ after /\ m = w :: captures /\ itemsRead r w captures.
Proof.
  induction s as [|c s IH]; intros m; simpl.
  - destruct (matchHere r "") as [m'|] eqn:Hhere; [|easy].
    intros [= <-]. apply matchHere_sound in Hhere.
    destruct Hhere as (w & after & captures & Hs & Hm & Hr).
    now exists "", w, after, captures.
  - destruct (matchHere r (String c s)) as [m'|] eqn:Hhere.
    + intros [= <-]. apply matchHere_sound in Hhere.
      destruct Hhere as (w & after & captures & Hs & Hm & Hr).
      now exists "", w, after, captures.
    + intros H. apply IH in H. destruct H as (before & w & after & captures & -> & -> & Hr).
      now exists (String c before), w, after, captures.
Qed.

(** Wherever the pattern reads a word, [exec] finds a match. *)
Lemma exec_complete r w captures after :
  itemsRead r w captures ->
  forall before, exists m, exec r (before ++ w ++ after) = Some m.
Proof.
  intros Hr.
  assert (Hhere : exists m, matchHere r (w ++ after) = Some m).
  { unfold matchHere.
    destruct (@matchItems_complete r w captures after [] Hr) as ([found rest] & ->). now eexists. }
  assert (Hstart : forall s, (exists m, matchHere r s = Some m) -> exists m, exec r s = Some m).
  { intros s (m & Hm). destruct s; simpl; rewrite Hm; now exists m. }
  induction before as [|c before IH]; [now apply Hstart|].
  simpl. destruct (matchHere r (String c (before ++ w ++ after))) as [m|]; [now exists m|].
  exact IH.
Qed.

Lemma test_iff r s :
  test r s = true
  <-> exists before w after captures, s = before ++ w ++ after /\ itemsRead r w captures.
Proof.
  unfold test. split.
  - destruct (exec r s) as [m|] eqn:Hexec; [|easy]. intros _.
    apply exec_sound in Hexec.
    destruct Hexec as (before & w & after & captures & -> & _ & Hr).
    now exists before, w, after, captures.
  - intros (before & w & after & captures & -> & Hr).
    destruct (@exec_complete r w captures after Hr before) as (m & ->). reflexivity.
Qed.

End RegExpFacts.

(* ================================================================= *)
(** * Further properties of the usage graph *)

Section PatternFacts.

Import RegExp ComponentUsageTool.

(** Takes the reading of the first atom off [H]. *)
Ltac peel H :=
  let w1 := fresh "w" in
  let w2 := fresh "w" in
  let E := fresh "E" in
  let A := fresh "A" in
  destruct H as (w1 & w2 & E & A & H).

Lemma extractSelector_read content :
  extractSelector content <> ""
  /\ Js.allChars (noneOf quotes3) (extractSelector content) = true.
Proof.
  unfold extractSelector.
  destruct (exec selectorField content) as [m|] eqn:Hexec; [|now split].
  apply exec_sound in Hexec.
  destruct Hexec as (before & w & after & captures & _ & -> & Hr).
  cbn [selectorField itemsRead atomsRead atomReads] in Hr.
  peel Hr. peel Hr. peel Hr.
  destruct Hr as (g & rest & captures' & _ & Hg & -> & _).
  destruct Hg as (g1 & g2 & -> & [Hne Hchars] & ->).
  cbn [nth]. rewrite append_nil_r. now split.
Qed.

(** X11: the selector the extraction returns is never empty and holds no
    quote character, whether it was read from the text or is the default. *)
Theorem extractSelector_not_empty content :
  extractSelector content <> ""
  /\ Js.allChars (noneOf quotes3) (extractSelector content) = true.
Proof. apply extractSelector_read. Qed.

Lemma extractComponentName_read content filePath name :
  extractComponentName content filePath = Some name -> componentNamed name.
Proof.
  unfold extractComponentName.
  destruct (exec componentClass content) as [m|] eqn:Hexec; [|easy].
  apply exec_sound in Hexec.
  destruct Hexec as (before & w & after & captures & _ & -> & Hr).
  cbn [componentClass itemsRead atomsRead atomReads] in Hr.
  peel Hr. peel Hr. peel Hr. peel Hr.
  destruct Hr as (g & rest & captures' & _ & Hg & -> & _).
  destruct Hg as (stem & g2 & -> & [Hne Hchars] & (lit & g3 & -> & -> & ->)).
  cbn [nth_error]. intros [= <-].
  exists stem. now repeat split.
Qed.

(** X12: a component name the extraction returns is a non-empty run of
    word characters followed by [Component]. *)
Theorem extractComponentName_shape content filePath name :
  extractComponentName content filePath = Some name -> componentNamed name.
Proof. apply extractComponentName_read. Qed.

(** X13: for a selector without syntax characters, a line of a template
    counts as a usage when it holds [<], the selector, and then a white
    space of the ASCII range or [>]; and a line of ASCII characters counts
    only then: there a longer tag name, a tag closed with [/>] right
    after the name or cut at the end of the line does not count. *)
Theorem selector_tag_test RegExpOther selector :
  isPlain selector = true ->
  selectorRegex RegExpOther selector = Some (tagTest selector)
  /\ (forall before c after,
        Js.isSpace c = true \/ c = ">"%char ->
        tagTest selector (before ++ "<" ++ selector ++ String c after) = true)
  /\ (forall line,
        Js.allChars Js.isAscii line = true ->
        tagTest selector line = true ->
        exists before c after,
          line = before ++ "<" ++ selector ++ String c after
          /\ (Js.isSpace c = true \/ c = ">"%char)).
Proof.
  intros Hplain. unfold selectorRegex. rewrite Hplain. split; [reflexivity|].
  unfold tagTest. split.
  - intros before c after Hc. apply test_iff. cbn [itemsRead atomReads].
    exists before, ("<" ++ selector ++ String c ""), after, [].
    split; [simpl; now rewrite append_assoc|].
    exists "<", (selector ++ String c ""). repeat split.
    exists selector, (String c ""). repeat split.
    exists (String c ""), "". repeat split.
    exists c. split; [reflexivity|].
    apply orb_true_iff. destruct Hc as [Hc| ->]; [now left|].
    right. apply Ascii.eqb_refl.
  - intros line _ Htest. apply test_iff in Htest. cbn [itemsRead atomReads] in Htest.
    destruct Htest as (before & w & after & captures & -> & Hr).
    destruct Hr as (w1 & w2 & -> & -> & w3 & w4 & -> & -> & w5 & w6 & -> & Hc & -> & _).
    destruct Hc as (c & -> & Hc).
    exists before, c, after. split; [simpl; now rewrite append_assoc|].
    apply orb_true_iff in Hc. destruct Hc as [Hc|Hc]; [now left|].
    right. now apply Ascii.eqb_eq.
Qed.

End PatternFacts.

Section UsageMore.

Import Fs RegExp ComponentUsageTool.

Variable cwd : string.
Variable RegExpOther : string -> option (string -> bool).

(** *** The usage scan only appends *)

Lemma grows_refl u : grows u u.
Proof.
  repeat split. exists []. now rewrite app_nil_r, Nat.add_0_r.
Qed.

Lemma grows_trans u1 u2 u3 : grows u1 u2 -> grows u2 u3 -> grows u1 u3.
Proof.
  intros (Hc1 & Hs1 & Hi1 & Hk1 & added1 & Hu1 & Ht1)
         (Hc2 & Hs2 & Hi2 & Hk2 & added2 & Hu2 & Ht2).
  repeat split; try congruence.
  exists (added1 ++ added2)%list. rewrite Hu2, Hu1, Ht2, Ht1, length_app.
  split; [now rewrite app_assoc | lia].
Qed.

Lemma recordUsage_grows location u : grows u (recordUsage location u).
Proof. repeat split. now exists [location]. Qed.

Lemma growsTo_refl m : growsTo m m.
Proof.
  induction m as [|entry m IH]; constructor; [|assumption].
  split; [reflexivity | apply grows_refl].
Qed.

Lemma growsTo_trans m1 m2 m3 : growsTo m1 m2 -> growsTo m2 m3 -> growsTo m1 m3.
Proof.
  intros H12. revert m3.
  induction H12 as [|e1 e2 m1 m2 [Hk12 Hg12] _ IH]; intros m3 H23;
    inversion H23 as [|e2' e3 m2' m3' [Hk23 Hg23] Hrest]; subst; constructor.
  - split; [congruence | now apply grows_trans with (snd e2)].
  - now apply IH.
Qed.

Lemma mutate_growsTo m key location : growsTo m (mutate m key location).
Proof.
  induction m as [|[k v] m IH]; simpl; [constructor|].
  destruct (k =? key).
  - constructor; [|apply growsTo_refl]. split; [reflexivity | apply recordUsage_grows].
  - constructor; [|assumption]. split; [reflexivity | apply grows_refl].
Qed.

Lemma recordListed_growsTo m0 filePath lines index includeContext describe m listed :
  growsTo m0 m ->
  growsTo m0 (recordListed filePath lines index includeContext describe m listed).
Proof.
  intros Hm. unfold recordListed. destruct (has m listed); [|assumption].
  apply growsTo_trans with m; [assumption | apply mutate_growsTo].
Qed.

Lemma scanTypeScriptFile_growsTo m0 content filePath m includeContext :
  growsTo m0 m -> growsTo m0 (scanTypeScriptFile content filePath m includeContext).
Proof.
  unfold scanTypeScriptFile, Js.forEach.
  apply forEachFrom_invariant. intros text index st Hst.
  unfold scanTypeScriptLine.
  assert (Himports :
    growsTo m0
      match exec importStatement text with
      | Some importMatch =>
          fold_left (recordListed filePath (Js.split Js.newline content) index includeContext
                       (fun _ => "Import: " ++ Js.trim text))
                    (listedNames (nth 1 importMatch "")) st
      | None => st
      end).
  { destruct (exec importStatement text); [|assumption].
    apply fold_left_invariant; [|assumption].
    intros. now apply recordListed_growsTo. }
  destruct (exec importsArray text); [|assumption].
  apply fold_left_invariant; [|assumption].
  intros. now apply recordListed_growsTo.
Qed.

Lemma scanTemplateLine_growsTo filePath lines includeContext text index m :
  growsTo m (fst (scanTemplateLine RegExpOther filePath lines includeContext text index m)).
Proof.
  induction m as [|[k v] m IH]; simpl; [constructor|].
  destruct (selectorRegex RegExpOther (selector v)) as [selectorTest|]; simpl;
    [|apply growsTo_refl].
  destruct (scanTemplateLine RegExpOther filePath lines includeContext text index m)
    as [rest' threw]; simpl in *.
  constructor; [|assumption]. split; [reflexivity|]. simpl.
  destruct (selectorTest text); [apply recordUsage_grows | apply grows_refl].
Qed.

Lemma scanTemplateLines_growsTo m0 filePath lines includeContext remaining :
  forall index m,
    growsTo m0 m ->
    growsTo m0 (scanTemplateLines RegExpOther filePath lines includeContext remaining index m).
Proof.
  induction remaining as [|text remaining IH]; intros index m Hm; simpl; [assumption|].
  pose proof (scanTemplateLine_growsTo filePath lines includeContext text index m) as Hline.
  destruct (scanTemplateLine RegExpOther filePath lines includeContext text index m)
    as [m' threw]; simpl in Hline.
  assert (Hm' : growsTo m0 m') by now apply growsTo_trans with m.
  destruct threw; [assumption | now apply IH].
Qed.

Lemma scanForUsages_growsTo fs projectPath m includeContext :
  growsTo m (scanForUsages cwd RegExpOther fs projectPath m includeContext).
Proof.
  unfold scanForUsages.
  apply (scanDirectoryAt_invariant cwd (growsTo m)); [|apply growsTo_refl].
  intros filePath item st Hst. unfold scanFile.
  destruct (Js.arrayIncludes _ _); [|assumption].
  destruct (readFile item) as [content|]; [|assumption].
  destruct (Path.extname filePath =? ".ts"); [now apply scanTypeScriptFile_growsTo|].
  destruct (Path.extname filePath =? ".html"); [|assumption].
  now apply scanTemplateLines_growsTo.
Qed.

(** X14: the usage scan keeps the discovered components as they are: the
    same names in the same order, each with its selector, import path and
    category; all it does is append usage locations and add their number
    to the counter. *)
Theorem scanForUsages_only_appends fs projectPath m includeContext :
  growsTo m (scanForUsages cwd RegExpOther fs projectPath m includeContext).
Proof. apply scanForUsages_growsTo. Qed.

(** *** Names *)

Lemma set_Forall (P : string * ComponentUsage -> Prop) m key value :
  Forall P m -> P (key, value) -> Forall P (set m key value).
Proof.
  intros Hm Hvalue.
  induction Hm as [|[k v] rest Hv Hrest IH]; simpl; [now constructor|].
  destruct (k =? key); constructor; auto.
Qed.

Lemma set_keys m key value x :
  In x (map fst (set m key value)) <-> x = key \/ In x (map fst m).
Proof.
  induction m as [|[k v] m IH]; simpl; [intuition congruence|].
  destruct (String.eqb_spec k key) as [->|Hne]; simpl; [intuition congruence|].
  rewrite IH. intuition congruence.
Qed.

Lemma set_keyed m key value :
  keyed m -> component value = key -> keyed (set m key value).
Proof.
  intros [Hnodup Hnames] Hvalue. split; [|now apply set_Forall].
  clear Hnames Hvalue.
  induction m as [|[k v] m IH]; simpl; [repeat constructor; easy|].
  inversion Hnodup as [|k' keys Hnotin Hrest]; subst.
  destruct (String.eqb_spec k key) as [->|Hne]; simpl; [now constructor|].
  constructor; [|now apply IH].
  rewrite set_keys. intros [->|Hin]; [now destruct Hne | now destruct Hnotin].
Qed.

Lemma growsTo_keys m m' : growsTo m m' -> map fst m' = map fst m.
Proof.
  induction 1 as [|e e' m m' [Hk _] _ IH]; simpl; [reflexivity | now rewrite Hk, IH].
Qed.

Lemma growsTo_keyed m m' : keyed m -> growsTo m m' -> keyed m'.
Proof.
  intros [Hnodup Hnames] Hgrows. split; [now rewrite (growsTo_keys Hgrows)|].
  induction Hgrows as [|e e' m m' [Hk (Hc & _)] _ IH]; constructor.
  - inversion Hnames; subst. congruence.
  - inversion Hnames; inversion Hnodup; subst. now apply IH.
Qed.

(** What the discovery stores for a file. *)
Lemma discoverComponents_invariant (P : ComponentMap -> Prop) fs projectPath :
  (forall m content filePath name,
     P m ->
     extractComponentName content filePath = Some name ->
     P (set m name
          {| component := name;
             selector := extractSelector content;
             usedIn := [];
             totalUsages := 0;
             importPath := Path.relative cwd projectPath filePath;
             category := determineComponentCategory
                           (Path.relative cwd projectPath filePath) |})) ->
  forall m, P m -> P (discoverComponents cwd fs projectPath m).
Proof.
  intros Hset m. unfold discoverComponents.
  apply (scanDirectoryAt_invariant cwd P). intros filePath item st Hst.
  unfold discoverFile.
  destruct (Js.endsWith filePath ".component.ts"); [|assumption].
  destruct (readFile item) as [content|]; [|assumption].
  destruct (extractComponentName content filePath) as [name|] eqn:Hname; [|assumption].
  destruct (negb (name =? "") && negb (extractSelector content =? "")); [|assumption].
  exact (Hset st content filePath name Hst Hname).
Qed.

Lemma discoverComponents_keyed fs projectPath :
  keyed (discoverComponents cwd fs projectPath []).
Proof.
  apply discoverComponents_invariant.
  - intros m content filePath name Hm _. now apply set_keyed.
  - split; constructor.
Qed.

Lemma analyzeComponentUsage_In fs projectPath targetComponent includeContext u :
  In u (analyzeComponentUsage cwd RegExpOther fs projectPath targetComponent includeContext) ->
  In u (values (scanned cwd RegExpOther fs projectPath includeContext)).
Proof.
  rewrite analyzeComponentUsage_cases. cbv zeta.
  destruct (negb (targetComponent =? "")); intros Hin.
  - now apply filter_In in Hin.
  - now apply sort_In in Hin.
Qed.

Lemma keyed_names m : keyed m -> map component (values m) = map fst m.
Proof.
  intros [_ Hnames]. unfold values. rewrite map_map.
  induction Hnames as [|entry m Hentry _ IH]; simpl; [reflexivity | now rewrite Hentry, IH].
Qed.

Lemma NoDup_map_filter {A B} (f : A -> B) (p : A -> bool) l :
  NoDup (map f l) -> NoDup (map f (filter p l)).
Proof.
  induction l as [|x l IH]; simpl; [easy|].
  intros Hnodup. inversion Hnodup as [|y ys Hnotin Hrest]; subst.
  destruct (p x); simpl; [|now apply IH].
  constructor; [|now apply IH].
  intros Hin. apply Hnotin. apply in_map_iff in Hin. destruct Hin as (z & Hz & Hin).
  apply filter_In in Hin. apply in_map_iff. exists z. now split.
Qed.

Lemma insertSorted_Permutation {A} (compareFn : A -> A -> Z) x sorted :
  Permutation (Js.insertSorted compareFn x sorted) (x :: sorted).
Proof.
  induction sorted as [|y sorted IH]; simpl; [reflexivity|].
  destruct (compareFn x y <=? 0)%Z; [reflexivity|].
  rewrite IH. apply perm_swap.
Qed.

Lemma sort_Permutation {A} (compareFn : A -> A -> Z) l :
  Permutation (Js.sort compareFn l) l.
Proof.
  induction l as [|x l IH]; simpl; [reflexivity|].
  rewrite insertSorted_Permutation. now constructor.
Qed.

Lemma scanned_keyed fs projectPath includeContext :
  keyed (scanned cwd RegExpOther fs projectPath includeContext).
Proof.
  apply growsTo_keyed with (discoverComponents cwd fs projectPath []).
  - apply discoverComponents_keyed.
  - apply scanForUsages_growsTo.
Qed.

(** X15: no component is listed twice: the names of the components an
    analysis returns are pairwise distinct, with a filter or without. *)
Theorem component_names_distinct fs projectPath targetComponent includeContext :
  NoDup (map component
           (analyzeComponentUsage cwd RegExpOther fs projectPath targetComponent
              includeContext)).
Proof.
  rewrite analyzeComponentUsage_cases. cbv zeta. fold (scanned cwd RegExpOther fs projectPath includeContext).
  assert (Hall : NoDup (map component
                          (values (scanned cwd RegExpOther fs projectPath includeContext)))).
  { rewrite keyed_names by apply scanned_keyed. apply scanned_keyed. }
  destruct (negb (targetComponent =? "")).
  - now apply NoDup_map_filter.
  - eapply Permutation_NoDup; [|exact Hall].
    apply Permutation_map. symmetry. apply sort_Permutation.
Qed.

Lemma growsTo_Forall (P : ComponentUsage -> Prop) m m' :
  (forall u u', grows u u' -> P u -> P u') ->
  Forall (fun entry => P (snd entry)) m -> growsTo m m' ->
  Forall (fun entry => P (snd entry)) m'.
Proof.
  intros Hgrows Hm Hto.
  induction Hto as [|e e' m m' [_ Hg] _ IH]; [constructor|].
  inversion Hm; subst. constructor; [now apply Hgrows with (snd e) | now apply IH].
Qed.

(** X16: every component an analysis returns has a name made of word
    characters followed by [Component], and a selector that is not empty
    and holds no quote character. *)
Theorem components_well_named fs projectPath targetComponent includeContext u :
  In u (analyzeComponentUsage cwd RegExpOther fs projectPath targetComponent includeContext) ->
  componentNamed (component u)
  /\ selector u <> ""
  /\ Js.allChars (noneOf quotes3) (selector u) = true.
Proof.
  intros Hin. apply analyzeComponentUsage_In in Hin.
  set (P := fun u => componentNamed (component u)
                     /\ selector u <> ""
                     /\ Js.allChars (noneOf quotes3) (selector u) = true).
  assert (Hall : Forall (fun entry => P (snd entry))
                        (scanned cwd RegExpOther fs projectPath includeContext)).
  { apply growsTo_Forall with (discoverComponents cwd fs projectPath []).
    - intros v v' (Hc & Hs & _) Hv. unfold P in *. now rewrite Hc, Hs.
    - apply (discoverComponents_invariant (Forall (fun entry => P (snd entry)))).
      + intros m content filePath name Hm Hname. apply set_Forall; [assumption|].
        unfold P. simpl. split; [now apply extractComponentName_read with content filePath|].
        apply extractSelector_read.
      + constructor.
    - apply scanForUsages_growsTo. }
  unfold values in Hin. apply in_map_iff in Hin. destruct Hin as (entry & <- & Hentry).
  rewrite Forall_forall in Hall. exact (Hall entry Hentry).
Qed.

(** X17: a filter loses nothing: every component of the unfiltered result
    whose name or selector contains the filter, in any case, is in the
    filtered result. *)
Theorem filter_keeps_every_match fs projectPath targetComponent includeContext u :
  targetComponent <> "" ->
  In u (analyzeComponentUsage cwd RegExpOther fs projectPath "" includeContext) ->
  matchesTarget targetComponent u = true ->
  In u (analyzeComponentUsage cwd RegExpOther fs projectPath targetComponent includeContext).
Proof.
  intros Htarget Hin Hmatch. apply analyzeComponentUsage_In in Hin.
  rewrite analyzeComponentUsage_cases. cbv zeta.
  apply String.eqb_neq in Htarget. rewrite Htarget. simpl.
  apply filter_In. now split.
Qed.

Lemma insertSorted_stable count x sorted :
  filter (fun u => totalUsages u =? count)%nat (Js.insertSorted byTotalUsages x sorted)
  = filter (fun u => totalUsages u =? count)%nat (x :: sorted).
Proof.
  induction sorted as [|y sorted IH]; [reflexivity|].
  cbn [Js.insertSorted].
  destruct (byTotalUsages x y <=? 0)%Z eqn:Hcmp; [reflexivity|].
  apply Z.leb_gt in Hcmp. unfold byTotalUsages in Hcmp.
  cbn [filter] in *. rewrite IH.
  destruct (Nat.eqb_spec (totalUsages x) count) as [Hx|Hx];
    destruct (Nat.eqb_spec (totalUsages y) count) as [Hy|Hy]; try reflexivity.
  lia.
Qed.

Lemma sort_stable count l :
  filter (fun u => totalUsages u =? count)%nat (Js.sort byTotalUsages l)
  = filter (fun u => totalUsages u =? count)%nat l.
Proof.
  induction l as [|x l IH]; [reflexivity|].
  cbn [Js.sort]. rewrite insertSorted_stable. cbn [filter]. now rewrite IH.
Qed.

(** X18: without a filter the result holds the components of the map in
    descending order of [totalUsages], and components with the same
    number of usages keep the order of their discovery. *)
Theorem unfiltered_result_order fs projectPath includeContext :
  let discovered := values (scanned cwd RegExpOther fs projectPath includeContext) in
  let result := analyzeComponentUsage cwd RegExpOther fs projectPath "" includeContext in
  Sorted moreUsed result
  /\ Permutation result discovered
  /\ forall count,
       filter (fun u => totalUsages u =? count)%nat result
       = filter (fun u => totalUsages u =? count)%nat discovered.
Proof.
  cbv zeta. rewrite analyzeComponentUsage_cases. cbv zeta.
  cbn [String.eqb negb]. fold (scanned cwd RegExpOther fs projectPath includeContext).
  split; [apply sort_Sorted|]. split; [apply sort_Permutation|].
  intros count. apply sort_stable.
Qed.

(** X19: what lies under a hidden directory, [node_modules] or [dist], at
    any depth below [src], changes nothing of the analysis. *)
Theorem analysis_ignores_refused_directories fs fs' projectPath targetComponent
        includeContext n :
  nodeAt cwd fs (Path.join projectPath "src") = Some n ->
  nodeAt cwd fs' (Path.join projectPath "src") = Some (FileOperations.prune n) ->
  analyzeComponentUsage cwd RegExpOther fs' projectPath targetComponent includeContext
  = analyzeComponentUsage cwd RegExpOther fs projectPath targetComponent includeContext.
Proof.
  intros Hn Hpruned.
  unfold analyzeComponentUsage, scanForUsages, discoverComponents, scanDirectoryAt.
  now rewrite Hn, Hpruned, !scanDirectory_skips.
Qed.

End UsageMore.

(** *** Usages in a template *)

Section TemplateFacts.

Import RegExp ComponentUsageTool.

Variable RegExpOther : string -> option (string -> bool).

Lemma scanTemplateLine_plain filePath lines includeContext text index m :
  Forall (fun entry => isPlain (selector (snd entry)) = true) m ->
  gains (fun u => if tagTest (selector u) text then 1 else 0) m
        (fst (scanTemplateLine RegExpOther filePath lines includeContext text index m))
  /\ snd (scanTemplateLine RegExpOther filePath lines includeContext text index m) = false.
Proof.
  induction 1 as [|[k v] m Hplain _ [IHgains IHthrew]]; simpl; [split; constructor|].
  simpl in Hplain. unfold selectorRegex. rewrite Hplain. fold (tagTest (selector v)).
  destruct (scanTemplateLine RegExpOther filePath lines includeContext text index m)
    as [rest' threw]; simpl in *.
  split; [|assumption]. constructor; [|assumption]. simpl.
  destruct (tagTest (selector v) text); simpl; repeat split; lia.
Qed.

Lemma gains_plain gain m m' :
  gains gain m m' ->
  Forall (fun entry => isPlain (selector (snd entry)) = true) m ->
  Forall (fun entry => isPlain (selector (snd entry)) = true) m'.
Proof.
  induction 1 as [|e e' m m' (_ & Hs & _) _ IH]; intros Hm; [constructor|].
  inversion Hm; subst. constructor; [now rewrite Hs | now apply IH].
Qed.

Lemma gains_nothing m : gains (fun _ => 0) m m.
Proof.
  induction m as [|e m IH]; constructor; [|assumption]. repeat split. lia.
Qed.

Lemma gains_then text rest m m1 m2 :
  gains (fun u => if tagTest (selector u) text then 1 else 0) m m1 ->
  gains (fun u => List.length (filter (tagTest (selector u)) rest)) m1 m2 ->
  gains (fun u => List.length (filter (tagTest (selector u)) (text :: rest))) m m2.
Proof.
  intros H1. revert m2.
  induction H1 as [|e e1 m m1 (Hk1 & Hs1 & Ht1) _ IH]; intros m2 H2;
    inversion H2 as [|e1' e2 m1' m2' (Hk2 & Hs2 & Ht2) Hrest]; subst; constructor.
  - repeat split; [congruence | congruence|].
    rewrite Ht2, Ht1, Hs1. cbn [filter].
    destruct (tagTest (selector (snd e)) text); simpl; lia.
  - now apply IH.
Qed.

Lemma scanTemplateLines_counts filePath lines includeContext remaining :
  forall index m,
    Forall (fun entry => isPlain (selector (snd entry)) = true) m ->
    gains (fun u => List.length (filter (tagTest (selector u)) remaining)) m
          (scanTemplateLines RegExpOther filePath lines includeContext remaining index m).
Proof.
  induction remaining as [|text remaining IH]; intros index m Hplain; simpl.
  - apply gains_nothing.
  - destruct (scanTemplateLine_plain filePath lines includeContext text index Hplain)
      as [Hline Hthrew].
    destruct (scanTemplateLine RegExpOther filePath lines includeContext text index m)
      as [m' threw]; simpl in *. subst threw.
    apply gains_then with m'; [assumption|].
    apply IH. now apply gains_plain with (2 := Hplain) in Hline.
Qed.

(** X20: when the selectors hold no syntax character, the scan of a
    template adds to the counter of every component the number of lines
    that hold its tag; a line with several tags of a component counts
    once, and keys and selectors stay as they are. *)
Theorem scanTemplateFile_counts_lines content filePath m includeContext :
  Forall (fun entry => isPlain (selector (snd entry)) = true) m ->
  gains (fun u => List.length (filter (tagTest (selector u)) (Js.split Js.newline content)))
        m (scanTemplateFile RegExpOther content filePath m includeContext).
Proof. intros Hplain. unfold scanTemplateFile. now apply scanTemplateLines_counts. Qed.

End TemplateFacts.

(** *** Usages in a script *)

Section ScriptFacts.

Import RegExp ComponentUsageTool.










(** *** What the search finds in a line of a given shape *)






















(** *** A script given by its lines *)



End ScriptFacts.

(** *** The context of a usage *)

Lemma mapiFrom_app {A B} (f : A -> nat -> B) l1 l2 :
  forall index,
    Js.mapiFrom f (l1 ++ l2) index
    = (Js.mapiFrom f l1 index ++ Js.mapiFrom f l2 (index + List.length l1))%list.
Proof.
  induction l1 as [|x l1 IH]; intros index; simpl.
  - now rewrite Nat.add_0_r.
  - rewrite IH. do 3 f_equal. lia.
Qed.

Lemma mapiFrom_ext_lt {A B} (f g : A -> nat -> B) l :
  forall index index',
    (forall x j, j < List.length l -> f x (index + j) = g x (index' + j)) ->
    Js.mapiFrom f l index = Js.mapiFrom g l index'.
Proof.
  induction l as [|x l IH]; intros index index' Hfg; simpl; [reflexivity|].
  f_equal.
  - specialize (Hfg x 0). rewrite !Nat.add_0_r in Hfg. apply Hfg. simpl. lia.
  - apply IH. intros y j Hj. specialize (Hfg y (S j)).
    replace (S index + j) with (index + S j) by lia.
    replace (S index' + j) with (index' + S j) by lia.
    apply Hfg. simpl. lia.
Qed.

Lemma firstn_min_length {A} (l : list A) n :
  firstn (Nat.min (List.length l) n) l = firstn n l.
Proof.
  destruct (Nat.le_ge_cases n (List.length l)) as [Hle|Hge].
  - now rewrite Nat.min_r.
  - rewrite Nat.min_l by assumption. now rewrite firstn_all, firstn_all2.
Qed.

Lemma slice_window {A} (before after : list A) (x : A) radius :
  let index := List.length before in
  Js.slice (before ++ x :: after) (index - radius)
           (Nat.min (List.length (before ++ x :: after)) (index + radius + 1))
  = (skipn (index - radius) before ++ x :: firstn radius after)%list.
Proof.
  cbv zeta. unfold Js.slice. rewrite length_app. cbn [List.length].
  rewrite skipn_app.
  replace (List.length before - radius - List.length before) with 0 by lia.
  rewrite skipn_0, firstn_app, length_skipn.
  rewrite firstn_all2 by (rewrite length_skipn; lia). f_equal.
  replace (Nat.min (List.length before + S (List.length after))
                   (List.length before + radius + 1)
           - (List.length before - radius)
           - (List.length before - (List.length before - radius)))
    with (S (Nat.min (List.length after) radius)) by lia.
  cbn [firstn]. now rewrite firstn_min_length.
Qed.

(** X21: the context of line [index] shows up to [radius] lines before and
    after it, each with its number counted from 1; the line itself, and no
    other, carries the arrow. *)
Theorem getContextLines_window before target after radius :
  let index := List.length before in
  ComponentUsageTool.getContextLines (before ++ target :: after) index radius
  = Js.join Js.nl
      (Js.mapiFrom (fun text i =>
                      ("  " ++ Js.numberToString (index - radius + i + 1) ++ ": " ++ text)%string)
                   (skipn (index - radius) before) 0
       ++ ("→ " ++ Js.numberToString (index + 1) ++ ": " ++ target)%string
       :: Js.mapiFrom (fun text i =>
                         ("  " ++ Js.numberToString (index + 2 + i) ++ ": " ++ text)%string)
                      (firstn radius after) 0)%list.
Proof.
  cbv zeta. unfold ComponentUsageTool.getContextLines.
  rewrite Nat.max_0_l, slice_window. f_equal.
  assert (Hstart : List.length before - radius
                   + List.length (skipn (List.length before - radius) before)
                   = List.length before) by (rewrite length_skipn; lia).
  rewrite mapiFrom_app. cbn [Js.mapiFrom Nat.add]. f_equal; [|f_equal].
  - apply mapiFrom_ext_lt. intros text j Hj. cbn [Nat.add].
    destruct (Nat.eqb_spec (List.length before - radius + j) (List.length before)) as [Heq|_];
      [lia | reflexivity].
  - rewrite Hstart, Nat.eqb_refl. reflexivity.
  - apply mapiFrom_ext_lt. intros text j Hj. cbn [Nat.add].
    destruct (Nat.eqb_spec
                (List.length before - radius
                 + S (List.length (skipn (List.length before - radius) before) + j))
                (List.length before)) as [Heq|_]; [exfalso; lia|].
    replace (List.length before - radius
             + S (List.length (skipn (List.length before - radius) before) + j) + 1)
      with (List.length before + 2 + j) by lia.
    reflexivity.
Qed.

(* ================================================================= *)
(** * The analysis helper *)

Section HelperFacts.

Import AnalysisHelper.

Lemma fold_pushIf_In content rules :
  forall pushed x,
    In x (fold_left (pushIf content) rules pushed) ->
    In x pushed \/ In x (map snd rules).
Proof.
  induction rules as [|rule rules IH]; intros pushed x; simpl; [now left|].
  intros Hin. apply IH in Hin. destruct Hin as [Hin|Hin]; [|now right; right].
  unfold pushIf in Hin. destruct (Js.includes content (fst rule)); [|now left].
  apply in_app_or in Hin. destruct Hin as [Hin|[<-|[]]]; [now left | now right; left].
Qed.

(** X22: the dependencies of a service are listed once each, and are
    among Angular Core, RxJS and Local Service, however many import
    statements the file holds. *)
Theorem analyzeServiceDependencies_labels content :
  NoDup (analyzeServiceDependencies content)
  /\ incl (analyzeServiceDependencies content) ["Angular Core"; "RxJS"; "Local Service"].
Proof.
  unfold analyzeServiceDependencies. split; [apply distinct_NoDup|].
  intros x Hin. apply distinct_incl in Hin. revert Hin.
  generalize (RegExp.matchAll importLine content) as imports.
  set (step := fun (deps : list string) (imp : string) =>
                 fold_left (pushIf imp)
                   [ ("@angular/core", "Angular Core"); ("rxjs", "RxJS");
                     ("./", "Local Service") ] deps).
  assert (Hfold : forall imports pushed,
             In x (fold_left step imports pushed) ->
             In x pushed \/ In x ["Angular Core"; "RxJS"; "Local Service"]).
  { induction imports as [|imp imports IH]; intros pushed; [now left|].
    change (fold_left step (imp :: imports) pushed)
      with (fold_left step imports (step pushed imp)).
    intros Hin. apply IH in Hin. destruct Hin as [Hin|Hin]; [|now right].
    unfold step in Hin. apply fold_pushIf_In in Hin. exact Hin. }
  intros imports Hin. apply Hfold in Hin. now destruct Hin.
Qed.

(** X23: the two classifications of a component by its path agree: the
    category of the usage analysis is [ui], [layout] or [feature] exactly
    when the architecture analysis says UI, Layout or Feature Component,
    and [external] when it says Root Component or Component. *)
Theorem component_classifications_agree path :
  match ComponentUsageTool.determineComponentCategory path with
  | ComponentUsageTool.ui => getComponentType path = "UI Component"
  | ComponentUsageTool.layout => getComponentType path = "Layout Component"
  | ComponentUsageTool.feature => getComponentType path = "Feature Component"
  | ComponentUsageTool.external =>
      getComponentType path = "Root Component" \/ getComponentType path = "Component"
  end.
Proof.
  unfold ComponentUsageTool.determineComponentCategory, getComponentType.
  destruct (Js.includes path "shared/components/ui"); [reflexivity|].
  destruct (Js.includes path "layout/"); [reflexivity|].
  destruct (Js.includes path "features/"); [reflexivity|].
  destruct (Js.includes path "app.component"); [now left | now right].
Qed.

End HelperFacts.

(* ================================================================= *)
(** * Instances *)

(** The cap at work: of the 52 lines of [Scenario.manyHits] that hold [x]
    outside the build directory, the search returns the 49 of the first
    file and the first of the last file. *)
Example performSearch_caps_many_hits :
  map (fun r => (FileOperations.file r, FileOperations.line r))
      (FileOperations.performSearch Scenario.cwd Scenario.manyHits Scenario.projectPath "X"
         FileOperations.ALLOWED_EXTENSIONS)
  = (map (fun n => ("a/long.ts", n)) (seq 1 49) ++ [("b.ts", 1)])%list
  /\ List.length (FileOperations.corpusHits Scenario.cwd Scenario.manyHits Scenario.projectPath
                    "X" FileOperations.ALLOWED_EXTENSIONS) = 52.
Proof. split; vm_compute; reflexivity. Qed.


Lemma performSearch_sound_witness :
  exists fullPath item content index text,
    In (fullPath, item)
       (FileOperations.searchableFilesAt Scenario.cwd Scenario.withExecutable
          Scenario.projectPath FileOperations.ALLOWED_EXTENSIONS)
    /\ Fs.readFile item = Some content
    /\ nth_error (Js.split Js.newline content) index = Some text
    /\ Js.includes (Js.toLowerCase text) (Js.toLowerCase "Signal") = true
    /\ Scenario.signalHit
       = FileOperations.hitFor Scenario.cwd fullPath (Js.split Js.newline content) index text.
Proof.
  apply (@performSearch_sound Scenario.cwd Scenario.withExecutable Scenario.projectPath
           "Signal" FileOperations.ALLOWED_EXTENSIONS Scenario.signalHit).
  vm_compute. auto.
Defined.

Lemma performSearch_complete_witness :
  In (FileOperations.hitFor Scenario.cwd "/home/dev/learning-notebook/main.ts"
        (Js.split Js.newline "const x = signal(0);") 0 "const x = signal(0);")
     (FileOperations.performSearch Scenario.cwd Scenario.withExecutable
        Scenario.projectPath "signal" FileOperations.ALLOWED_EXTENSIONS).
Proof.
  apply (@performSearch_complete Scenario.cwd Scenario.withExecutable Scenario.projectPath
           "signal" FileOperations.ALLOWED_EXTENSIONS
           "/home/dev/learning-notebook/main.ts"
           (Scenario.text ["const x = signal(0);"]) "const x = signal(0);" 0
           "const x = signal(0);").
  - vm_compute. lia.
  - vm_compute. auto.
  - reflexivity.
  - reflexivity.
  - reflexivity.
Defined.

Lemma performSearch_query_case_witness :
  FileOperations.performSearch Scenario.cwd Scenario.withExecutable Scenario.projectPath
    "Signal" FileOperations.ALLOWED_EXTENSIONS
  = FileOperations.performSearch Scenario.cwd Scenario.withExecutable Scenario.projectPath
      "SIGNAL" FileOperations.ALLOWED_EXTENSIONS.
Proof.
  apply (@performSearch_query_case Scenario.cwd Scenario.withExecutable
           Scenario.projectPath "Signal" "SIGNAL" FileOperations.ALLOWED_EXTENSIONS).
  reflexivity.
Defined.

Lemma handler_report_bounds_witness :
  List.length (SearchCodebase.results Scenario.executableReport) <= 50
  /\ SearchCodebase.matchedFiles Scenario.executableReport
     <= List.length (SearchCodebase.results Scenario.executableReport)
  /\ SearchCodebase.matchedFiles Scenario.executableReport
     <= SearchCodebase.totalFiles Scenario.executableReport.
Proof.
  apply (@handler_report_bounds Scenario.cwd Scenario.withExecutable "signal"
           (Some [".exe"]) None Scenario.executableReport).
  vm_compute. reflexivity.
Defined.

Lemma files_are_searched_whatever_their_name_witness :
  In (FileOperations.hitFor Scenario.cwd
        (Path.join "/home/dev/learning-notebook" ".env.json")
        (Js.split Js.newline "{ token: 1 }") 0 "{ token: 1 }")
     (FileOperations.searchFiles Scenario.cwd "TOKEN" FileOperations.ALLOWED_EXTENSIONS
        "/home/dev/learning-notebook"
        (Fs.Dir true [ ("dist", Fs.File (Some "x")); (".env.json", Fs.File (Some "{ token: 1 }")) ])
        [])
  /\ 1 <= FileOperations.countFiles FileOperations.ALLOWED_EXTENSIONS
            "/home/dev/learning-notebook"
            (Fs.Dir true [ ("dist", Fs.File (Some "x"));
                           (".env.json", Fs.File (Some "{ token: 1 }")) ]) 0.
Proof.
  apply (@files_are_searched_whatever_their_name Scenario.cwd "TOKEN"
           FileOperations.ALLOWED_EXTENSIONS "/home/dev/learning-notebook"
           [ ("dist", Fs.File (Some "x")); (".env.json", Fs.File (Some "{ token: 1 }")) ]
           ".env.json" "{ token: 1 }" 0 "{ token: 1 }").
  - simpl. auto.
  - reflexivity.
  - reflexivity.
  - reflexivity.
Defined.

Lemma search_ignores_refused_directories_witness :
  let services := Path.join Scenario.projectPath "src/app/core/services" in
  FileOperations.performSearch Scenario.cwd Scenario.servicesOnly services "class"
    FileOperations.ALLOWED_EXTENSIONS
  = FileOperations.performSearch Scenario.cwd Scenario.servicesWithDependencies services
      "class" FileOperations.ALLOWED_EXTENSIONS
  /\ FileOperations.countSearchableFiles Scenario.cwd Scenario.servicesOnly services
       FileOperations.ALLOWED_EXTENSIONS
     = FileOperations.countSearchableFiles Scenario.cwd Scenario.servicesWithDependencies
         services FileOperations.ALLOWED_EXTENSIONS.
Proof.
  cbv zeta.
  eapply (@search_ignores_refused_directories Scenario.cwd
            Scenario.servicesWithDependencies Scenario.servicesOnly).
  - vm_compute. reflexivity.
  - vm_compute. reflexivity.
Defined.

Lemma validateFilePath_rejects_before_fs_witness :
  FileOperations.validateFilePath Scenario.cwd (fun _ => true) (fun _ => Some true)
    "notes.exe"
  = inr (FileOperations.DisallowedType ".exe").
Proof.
  apply (@validateFilePath_rejects_before_fs Scenario.cwd (fun _ => false)
           (fun _ => None) (fun _ => true) (fun _ => Some true) "notes.exe").
  - reflexivity.
  - discriminate.
Defined.

Lemma extractComponentName_shape_witness : ComponentUsageTool.componentNamed "AComponent".
Proof.
  apply (@extractComponentName_shape "export class AComponent {}" "a.component.ts").
  reflexivity.
Defined.

Lemma selector_tag_test_witness :
  ComponentUsageTool.tagTest "app-b" "  <app-b class='x'>" = true
  /\ exists before c after,
       "  <app-b></app-b>" = before ++ "<" ++ "app-b" ++ String c after
       /\ (Js.isSpace c = true \/ c = ">"%char).
Proof.
  pose proof (@selector_tag_test Scenario.noRegExp "app-b" eq_refl) as [_ [Hif Honly]].
  split.
  - apply (Hif "  " " "%char "class='x'>"). now left.
  - apply Honly; reflexivity.
Defined.

Lemma components_well_named_witness :
  ComponentUsageTool.componentNamed (ComponentUsageTool.component Scenario.usedComponent)
  /\ ComponentUsageTool.selector Scenario.usedComponent <> ""
  /\ Js.allChars (RegExp.noneOf ComponentUsageTool.quotes3)
                 (ComponentUsageTool.selector Scenario.usedComponent) = true.
Proof.
  apply (@components_well_named Scenario.cwd Scenario.noRegExp Scenario.twoComponents
           Scenario.projectPath "" false).
  vm_compute. auto.
Defined.

Lemma filter_keeps_every_match_witness :
  In Scenario.usedComponent
     (ComponentUsageTool.analyzeComponentUsage Scenario.cwd Scenario.noRegExp
        Scenario.twoComponents Scenario.projectPath "bcomp" false).
Proof.
  apply (@filter_keeps_every_match Scenario.cwd Scenario.noRegExp Scenario.twoComponents
           Scenario.projectPath "bcomp" false).
  - discriminate.
  - vm_compute. auto.
  - reflexivity.
Defined.

Lemma analysis_ignores_refused_directories_witness :
  ComponentUsageTool.analyzeComponentUsage Scenario.cwd Scenario.noRegExp
    Scenario.twoComponents Scenario.projectPath "" true
  = ComponentUsageTool.analyzeComponentUsage Scenario.cwd Scenario.noRegExp
      Scenario.twoComponentsWithDependencies Scenario.projectPath "" true.
Proof.
  eapply (@analysis_ignores_refused_directories Scenario.cwd Scenario.noRegExp
            Scenario.twoComponentsWithDependencies Scenario.twoComponents).
  - vm_compute. reflexivity.
  - vm_compute. reflexivity.
Defined.

Lemma scanTemplateFile_counts_lines_witness :
  ComponentUsageTool.gains
    (fun u => List.length
                (filter (ComponentUsageTool.tagTest (ComponentUsageTool.selector u))
                        (Js.split Js.newline
                           (Js.join Js.nl ["<app-b>"; "<app-b> <app-b >"; "<app-bb>"]))))
    [("BComponent", Scenario.usedComponent)]
    (ComponentUsageTool.scanTemplateFile Scenario.noRegExp
       (Js.join Js.nl ["<app-b>"; "<app-b> <app-b >"; "<app-bb>"]) "src/list.html"
       [("BComponent", Scenario.usedComponent)] false).
Proof.
  apply (@scanTemplateFile_counts_lines Scenario.noRegExp).
  repeat constructor.
Defined.


Lemma generateRelatedSearches_shape_witness :
  List.length (FileOperations.generateRelatedSearches "my Signal" []) = 5
  /\ ~ In ("my Signal" ++ " interface") (FileOperations.generateRelatedSearches "my Signal" []).
Proof.
  apply (proj1 (generateRelatedSearches_shape "my Signal" [])). reflexivity.
Defined.
